(** * aws_bedrock_playground: the two Bedrock command-line clients

    A shallow embedding of [claude3-cli.py] (the generic prompt client) and
    [llm-review-claude3.py] (the code-review client), and the properties of
    their input assembly, prompt resolution, stream consumption and error
    path.

    Python values are embedded as the inductive [pyval]; a Python statement
    that can raise is embedded in the error monad [result]; the file system,
    the standard input and the vendor SDK are explicit components of a
    [world]. *)

From Stdlib Require Import String Ascii List ZArith QArith Bool Lia.
Import ListNotations.
Local Open Scope Z_scope.
Local Open Scope list_scope.
Local Open Scope string_scope.
Set Warnings "-register-all".

(** ** Python values and exceptions *)

(** The values [json.loads] can return, which are also the values the
    scripts' variables hold ([None] is [VNone]).  A [dict] keeps its items in
    insertion order; [dict_get] returns the first binding of a key. *)
Inductive pyval : Type :=
| VNone
| VBool (b : bool)
| VInt (n : Z)
| VStr (s : string)
| VList (items : list pyval)
| VDict (items : list (string * pyval)).

Inductive exn : Type :=
| KeyError (key : string)
| TypeError
| FileNotFoundError
| PermissionError
| IsADirectoryError
| UnicodeDecodeError
| JSONDecodeError
| OSError (errno : string)
| ClientError (response : pyval)
| OtherError (name : string).

Inductive result (A : Type) : Type :=
| Ok (a : A)
| Raise (e : exn).
Arguments Ok {A} a.
Arguments Raise {A} e.

Definition bind {A B : Type} (c : result A) (k : A -> result B) : result B :=
  match c with
  | Ok a => k a
  | Raise e => Raise e
  end.

Notation "x <- c ;; k" := (bind c (fun x => k))
  (at level 61, c at next level, right associativity).
Notation "' pat <- c ;; k" := (bind c (fun x => match x with pat => k end))
  (at level 61, pat pattern, c at next level, right associativity).

Definition is_ok {A : Type} (c : result A) : bool :=
  match c with
  | Ok _ => true
  | Raise _ => false
  end.

Fixpoint dict_get (key : string) (items : list (string * pyval)) : option pyval :=
  match items with
  | [] => None
  | (k, v) :: rest => if String.eqb k key then Some v else dict_get key rest
  end.

(** [v[key]] for a string [key]: a [dict] is looked up and raises
    [KeyError] on a missing key, every other value raises [TypeError]. *)
Definition getitem (v : pyval) (key : string) : result pyval :=
  match v with
  | VDict items =>
      match dict_get key items with
      | Some x => Ok x
      | None => Raise (KeyError key)
      end
  | _ => Raise TypeError
  end.

(** [v == s] for a string literal [s]. *)
Definition eq_str (v : pyval) (s : string) : bool :=
  match v with
  | VStr t => String.eqb t s
  | _ => false
  end.

(** [acc += v] for a string [acc]. *)
Definition iadd_str (acc : string) (v : pyval) : result string :=
  match v with
  | VStr t => Ok (acc ++ t)
  | _ => Raise TypeError
  end.

(** [v + s] for a string [s], as in [user_prompt + "\n"]. *)
Definition add_str (v : pyval) (s : string) : result string :=
  match v with
  | VStr t => Ok (t ++ s)
  | _ => Raise TypeError
  end.

Fixpoint is_infix (k s : string) : bool :=
  String.prefix k s ||
  match s with
  | EmptyString => false
  | String _ s' => is_infix k s'
  end.

(** [key in v] for a string [key]. *)
Definition contains (key : string) (v : pyval) : result bool :=
  match v with
  | VDict items => Ok (match dict_get key items with Some _ => true | None => false end)
  | VList items => Ok (existsb (fun x => eq_str x key) items)
  | VStr s => Ok (is_infix key s)
  | _ => Raise TypeError
  end.

(** Truth value of an optional string ([None] and the empty string are false). *)
Definition truthy (o : option string) : bool :=
  match o with
  | Some s => negb (String.eqb s "")
  | None => false
  end.

(** ** The streaming client, [generate_message]

    The function has the same text in both scripts (claude3-cli.py lines
    49-95, llm-review-claude3.py lines 34-76). *)

(** The dictionary serialised into the request body. *)
Record request_body : Type := {
  anthropic_version : string;
  max_tokens : Z;
  temperature : Z;
  top_p : Q;
  system : pyval;
  messages : pyval
}.

(** The SDK client.  A call either raises or returns the response stream;
    the stream is the list of its events' chunks, each one as decoded by
    [json.loads(event["chunk"]["bytes"])]. *)
Record bedrock_runtime : Type := {
  invoke_model_with_response_stream : request_body -> string -> result (list pyval)
}.

Definition make_body (max_tokens_ : Z) (system_prompt messages_ : pyval) : request_body :=
  {| anthropic_version := "bedrock-2023-05-31";
     max_tokens := max_tokens_;
     temperature := 1;
     top_p := (999 # 1000)%Q;
     system := system_prompt;
     messages := messages_ |}.

(** The body of the [for event in response.get("body")] loop, on the loop
    variables [(result, status)]. *)
Definition on_chunk (acc : string * pyval) (chunk : pyval) : result (string * pyval) :=
  let '(result_, status) := acc in
  ty <- getitem chunk "type" ;;
  status' <- (if eq_str ty "message_delta" then
                d1 <- getitem chunk "delta" ;;
                stop_reason <- getitem d1 "stop_reason" ;;
                d2 <- getitem chunk "delta" ;;
                stop_sequence <- getitem d2 "stop_sequence" ;;
                u <- getitem chunk "usage" ;;
                output_tokens <- getitem u "output_tokens" ;;
                Ok (VDict [("stop_reason", stop_reason);
                           ("stop_sequence", stop_sequence);
                           ("output_tokens", output_tokens)])
              else Ok status) ;;
  ty' <- getitem chunk "type" ;;
  if eq_str ty' "content_block_delta" then
    d <- getitem chunk "delta" ;;
    dty <- getitem d "type" ;;
    if eq_str dty "text_delta" then
      d' <- getitem chunk "delta" ;;
      text <- getitem d' "text" ;;
      result' <- iadd_str result_ text ;;
      Ok (result', status')
    else Ok (result_, status')
  else Ok (result_, status').

Fixpoint consume (acc : string * pyval) (events : list pyval) : result (string * pyval) :=
  match events with
  | [] => Ok acc
  | chunk :: rest => acc' <- on_chunk acc chunk ;; consume acc' rest
  end.

Definition generate_message (runtime : bedrock_runtime) (model_id : string)
    (system_prompt messages_ : pyval) (max_tokens_ : Z) : result (string * pyval) :=
  let body := make_body max_tokens_ system_prompt messages_ in
  events <- invoke_model_with_response_stream runtime body model_id ;;
  consume ("", VDict []) events.

(** A client whose call returns a scripted stream. *)
Definition scripted (events : list pyval) : bedrock_runtime :=
  {| invoke_model_with_response_stream := fun _ _ => Ok events |}.

(** A client whose call raises. *)
Definition failing (e : exn) : bedrock_runtime :=
  {| invoke_model_with_response_stream := fun _ _ => Raise e |}.

(** ** What the stream says, independently of the loop

    [field] is the total counterpart of [getitem]; the functions below read a
    stream the way the protocol describes it. *)

Definition field (v : pyval) (key : string) : option pyval :=
  match v with
  | VDict items => dict_get key items
  | _ => None
  end.

Definition has_type (v : pyval) (s : string) : bool :=
  match field v "type" with
  | Some ty => eq_str ty s
  | None => false
  end.

Definition is_message_delta (chunk : pyval) : bool :=
  has_type chunk "message_delta".

Definition is_text_delta (chunk : pyval) : bool :=
  has_type chunk "content_block_delta" &&
  match field chunk "delta" with
  | Some d => has_type d "text_delta"
  | None => false
  end.

(** The text fragment a chunk carries in [delta.text]. *)
Definition text_of (chunk : pyval) : string :=
  match field chunk "delta" with
  | Some d =>
      match field d "text" with
      | Some (VStr t) => t
      | _ => ""
      end
  | None => ""
  end.

Definition join (parts : list string) : string :=
  fold_right String.append "" parts.

(** The text fragments of the text-delta chunks, in stream order. *)
Definition accumulated_text (events : list pyval) : string :=
  join (map text_of (filter is_text_delta events)).

(** The status record a [message_delta] chunk carries. *)
Definition status_of (chunk : pyval) : option pyval :=
  match field chunk "delta", field chunk "usage" with
  | Some d, Some u =>
      match field d "stop_reason", field d "stop_sequence", field u "output_tokens" with
      | Some sr, Some ss, Some ot =>
          Some (VDict [("stop_reason", sr); ("stop_sequence", ss); ("output_tokens", ot)])
      | _, _, _ => None
      end
  | _, _ => None
  end.

Definition last_message_delta (events : list pyval) : option pyval :=
  find is_message_delta (rev events).

(** The status of the last [message_delta] chunk, the empty record when
    there is none. *)
Definition final_status (events : list pyval) : option pyval :=
  match last_message_delta events with
  | Some chunk => status_of chunk
  | None => Some (VDict [])
  end.

(** The chunks the loop body runs through without raising: a [dict] with a
    ["type"]; a [message_delta] has its three fields; a [content_block_delta]
    has a [delta] with a ["type"], and a string ["text"] when that type is
    [text_delta]. *)
Definition well_formed (chunk : pyval) : bool :=
  match field chunk "type" with
  | None => false
  | Some ty =>
      (if eq_str ty "message_delta" then
         match status_of chunk with Some _ => true | None => false end
       else true) &&
      (if eq_str ty "content_block_delta" then
         match field chunk "delta" with
         | Some d =>
             match field d "type" with
             | Some dty =>
                 if eq_str dty "text_delta" then
                   match field d "text" with
                   | Some (VStr _) => true
                   | _ => false
                   end
                 else true
             | None => false
             end
         | None => false
         end
       else true)
  end.

(** The chunks the protocol tells the client to ignore: the discriminant is
    neither [message_delta] nor [content_block_delta], or it is
    [content_block_delta] and [delta.type] is not [text_delta]. *)
Definition ignorable (chunk : pyval) : bool :=
  match field chunk "type" with
  | None => false
  | Some ty =>
      if eq_str ty "message_delta" then false
      else if eq_str ty "content_block_delta" then
        match field chunk "delta" with
        | Some d =>
            match field d "type" with
            | Some dty => negb (eq_str dty "text_delta")
            | None => false
            end
        | None => false
        end
      else true
  end.

(** The two recognised chunk shapes. *)
Definition recognized (chunk : pyval) : bool :=
  is_message_delta chunk || is_text_delta chunk.

(** The scripted streams of the testable properties. *)
Definition text_delta_chunk (t : string) : pyval :=
  VDict [("type", VStr "content_block_delta");
         ("index", VInt 0);
         ("delta", VDict [("type", VStr "text_delta"); ("text", VStr t)])].

Definition message_delta_chunk (stop_reason stop_sequence : pyval) (output_tokens : Z) : pyval :=
  VDict [("type", VStr "message_delta");
         ("delta", VDict [("stop_reason", stop_reason); ("stop_sequence", stop_sequence)]);
         ("usage", VDict [("output_tokens", VInt output_tokens)])].

Definition hello_stream : list pyval :=
  [text_delta_chunk "Hello, "; text_delta_chunk "world!";
   message_delta_chunk (VStr "end_turn") VNone 5].

Definition ping_chunk : pyval := VDict [("type", VStr "ping")].

Definition input_json_delta_chunk : pyval :=
  VDict [("type", VStr "content_block_delta");
         ("delta", VDict [("type", VStr "input_json_delta"); ("partial_json", VStr "{")])].

(** ** The file system, the standard input and the SDK *)

(** What [os.stat] finds at a path.  A regular file carries whether [open]
    may read it and the text [f.read()] returns for it, [None] when its bytes
    are not valid UTF-8.  A faulty file is a regular file on which opening or
    reading fails with an [OSError], as [EIO] on [/proc/self/mem].  A special
    node exists and is neither a regular file nor a directory: a pipe or a
    device, which [open] and [read] give as text, or a socket, on which
    [open] raises [OSError]; it carries the result of opening and reading. *)
Inductive node : Type :=
| RegularFile (readable : bool) (text : option string)
| Directory
| FaultyFile (errno : string)
| Special (read : result string).

(** The file system as [os.stat] sees it: a path on which [os.stat] fails,
    because nothing is there or because a directory on the way may not be
    searched, has no node. *)
Definition filesystem : Type := string -> option node.

Definition isfile (fs : filesystem) (path : string) : bool :=
  match fs path with
  | Some (RegularFile _ _) => true
  | Some (FaultyFile _) => true
  | _ => false
  end.

Definition exists_ (fs : filesystem) (path : string) : bool :=
  match fs path with
  | Some _ => true
  | None => false
  end.

(** [os.path.isfile] on a value of argparse, a string or [None]: [os.stat]
    raises [TypeError] on [None], which [isfile] does not catch. *)
Definition os_path_isfile (fs : filesystem) (path : option string) : result bool :=
  match path with
  | Some p => Ok (isfile fs p)
  | None => Raise TypeError
  end.

(** [open(path, 'r', encoding='UTF-8')] followed by [f.read()]. *)
Definition open_read (fs : filesystem) (path : string) : result string :=
  match fs path with
  | None => Raise FileNotFoundError
  | Some Directory => Raise IsADirectoryError
  | Some (RegularFile false _) => Raise PermissionError
  | Some (RegularFile true None) => Raise UnicodeDecodeError
  | Some (RegularFile true (Some text)) => Ok text
  | Some (FaultyFile errno) => Raise (OSError errno)
  | Some (Special read) => read
  end.

(** The same on a value of argparse; [open(None)] raises [TypeError]. *)
Definition open_read_arg (fs : filesystem) (path : option string) : result string :=
  match path with
  | Some p => open_read fs p
  | None => Raise TypeError
  end.

Record world : Type := {
  fs : filesystem;
  stdin : string;
  boto3_client : option (string * string * string) -> result bedrock_runtime
}.

(** How a run ends: the interpreter exits with 0 after the last statement
    and with 1 on an exception nobody caught. *)
Inductive termination : Type :=
| Finished
| Uncaught (e : exn).

Record outcome : Type := {
  stdout : list string;
  logged : list string;
  exit : termination
}.

Definition exit_code (o : outcome) : Z :=
  match exit o with
  | Finished => 0
  | Uncaught _ => 1
  end.

Definition newline : string := String (ascii_of_nat 10) EmptyString.

(** The [messages] list holding the single user message. *)
Definition user_messages (user_prompt : string) : pyval :=
  VList [VDict [("role", VStr "user");
                ("content", VList [VDict [("type", VStr "text");
                                          ("text", VStr user_prompt)]])]].

(** The text of the user message of a request. *)
Definition sent_text (body : request_body) : option pyval :=
  match messages body with
  | VList [VDict m] =>
      match dict_get "content" m with
      | Some (VList [VDict c]) => dict_get "text" c
      | _ => None
      end
  | _ => None
  end.

(** A client that answers a request with its own user-message text, as one
    text chunk: it makes the request observable in the output. *)
Definition echoing : bedrock_runtime :=
  {| invoke_model_with_response_stream := fun body _ =>
       match sent_text body with
       | Some (VStr t) => Ok [text_delta_chunk t]
       | _ => Ok []
       end |}.

Section Rendering.

(** [repr] of Python, used by [str] on the values that are neither a
    string nor [None]. *)
Variable repr : pyval -> string.

Definition str_ (v : pyval) : string :=
  match v with
  | VStr s => s
  | VNone => "None"
  | _ => repr v
  end.

(** The [except ClientError as err] block, the same text in both scripts
    (claude3-cli.py lines 168-172, llm-review-claude3.py lines 135-139);
    [out] is what the [try] block has printed and [status] the value of the
    variable [status] when the exception arrives. *)
Definition except_client_error (out : list string) (status response : pyval) : outcome :=
  match (e <- getitem response "Error" ;; getitem e "Message") with
  | Raise e => {| stdout := out; logged := []; exit := Uncaught e |}
  | Ok message =>
      {| stdout := app out ["A client error occured: " ++ str_ message; str_ status];
         logged := ["A client error occurred: " ++ str_ message];
         exit := Finished |}
  end.

(** What follows a [try] block that printed [out], left [status] and
    ended with [r]. *)
Definition handle (run : list string * pyval * result unit) : outcome :=
  match run with
  | (out, _, Ok _) => {| stdout := out; logged := []; exit := Finished |}
  | (out, status, Raise (ClientError response)) => except_client_error out status response
  | (out, _, Raise e) => {| stdout := out; logged := []; exit := Uncaught e |}
  end.

End Rendering.

(** The three-way [and] of the credential flags: the explicit triple when
    all three are truthy, otherwise the SDK's default resolution. *)
Definition credentials (accessKey secretKey : option string) (region : string)
    : option (string * string * string) :=
  match accessKey, secretKey with
  | Some k, Some s =>
      if truthy (Some k) && truthy (Some s) && truthy (Some region)
      then Some (k, s, region) else None
  | _, _ => None
  end.

(** What the input assembler is meant to read: the paths that name an
    existing readable file with UTF-8 text, and their text. *)
Definition readable_file (fs : filesystem) (path : string) : bool :=
  match fs path with
  | Some (RegularFile true (Some _)) => true
  | _ => false
  end.

Definition file_text (fs : filesystem) (path : string) : string :=
  match fs path with
  | Some (RegularFile true (Some text)) => text
  | _ => ""
  end.

(** A regular file that [os.stat] finds, so that it passes both
    [os.path.isfile] and [os.path.exists], and that [open] refuses to
    read. *)
Definition unreadable_file (fs : filesystem) (path : string) : bool :=
  match fs path with
  | Some (RegularFile false _) => true
  | _ => false
  end.

(** ** claude3-cli.py, the generic client *)

Module Claude3Cli.

(** The loop of [files_reader] (lines 26-29) on its variable [result]. *)
Fixpoint read_files (fs : filesystem) (result_ : string) (files : list string)
    : result string :=
  match files with
  | [] => Ok result_
  | path :: rest =>
      if isfile fs path then
        text <- open_read fs path ;;
        read_files fs (result_ ++ text) rest
      else read_files fs result_ rest
  end.

Definition files_reader (fs : filesystem) (files : list string) : result string :=
  read_files fs "" files.

(** The parsed command line (lines 99-110). *)
Record args : Type := {
  args_ : list string;
  accessKey : option string;
  secretKey : option string;
  region : string;
  model : string;
  maxTokens : Z;
  systemprompt : option string;
  prompt : option string;
  promptfile : option string
}.

Section Driver.

(** [json.loads] on the text of a file, and [repr]. *)
Variable json_loads : string -> result pyval.
Variable repr : pyval -> string.

Definition read_prompt_json (fs : filesystem) (path : option string)
    : result (pyval * pyval) :=
  is_file <- os_path_isfile fs path ;;
  if is_file then
    text <- open_read_arg fs path ;;
    _result <- json_loads text ;;
    has_system <- contains "system_prompt" _result ;;
    system_prompt <- (if has_system then getitem _result "system_prompt"
                      else Ok VNone) ;;
    has_user <- contains "user_prompt" _result ;;
    user_prompt <- (if has_user then getitem _result "user_prompt"
                    else Ok VNone) ;;
    Ok (system_prompt, user_prompt)
  else Ok (VNone, VNone).

(** Lines 112-116. *)
Definition input_assembly (w : world) (a : args) : result string :=
  if (0 <? length (args_ a))%nat then files_reader (fs w) (args_ a)
  else Ok (stdin w).

(** Lines 118-124. *)
Definition resolve_prompts (w : world) (a : args) : result (pyval * pyval) :=
  ' (system_prompt, user_prompt) <- read_prompt_json (fs w) (promptfile a) ;;
  let system_prompt :=
    match systemprompt a with
    | Some s => VStr s
    | None => system_prompt
    end in
  let user_prompt :=
    match prompt a with
    | Some u => VStr u
    | None => user_prompt
    end in
  Ok (system_prompt, user_prompt).

(** Line 126, [user_prompt + "\n" + additional_prompt]. *)
Definition compose_user_prompt (user_prompt : pyval) (additional_prompt : string)
    : result string :=
  prefixed <- add_str user_prompt newline ;;
  Ok (prefixed ++ additional_prompt).

(** Everything before the [try] block: the system prompt and the text of
    the user message. *)
Definition prepare (w : world) (a : args) : result (pyval * string) :=
  additional_prompt <- input_assembly w a ;;
  ' (system_prompt, user_prompt) <- resolve_prompts w a ;;
  user_prompt' <- compose_user_prompt user_prompt additional_prompt ;;
  Ok (system_prompt, user_prompt').

Definition connect (w : world) (a : args) : result bedrock_runtime :=
  boto3_client w (credentials (accessKey a) (secretKey a) (region a)).

Definition token_budget (a : args) : Z :=
  if (maxTokens a =? 0)%Z then 50000 else maxTokens a.

(** The [try] block (lines 132-166): what it printed, the variable
    [status] when it ends, and how it ends. *)
Definition try_block (w : world) (a : args) (system_prompt : pyval)
    (user_prompt : string) (status : pyval) : list string * pyval * result unit :=
  match connect w a with
  | Raise e => ([], status, Raise e)
  | Ok runtime =>
      match generate_message runtime (model a) system_prompt
              (user_messages user_prompt) (token_budget a) with
      | Raise e => ([], status, Raise e)
      | Ok (response_messages, status') => ([response_messages], status', Ok tt)
      end
  end.

Definition main (w : world) (a : args) : outcome :=
  match prepare w a with
  | Raise e => {| stdout := []; logged := []; exit := Uncaught e |}
  | Ok (system_prompt, user_prompt) =>
      handle repr (try_block w a system_prompt user_prompt VNone)
  end.

End Driver.

End Claude3Cli.

(** ** llm-review-claude3.py, the review client *)

Module LlmReview.

(** The loop of [files_reader] (lines 26-30); [f.close()] has no effect
    on the result. *)
Fixpoint read_files (fs : filesystem) (result_ : string) (files : list string)
    : result string :=
  match files with
  | [] => Ok result_
  | path :: rest =>
      if exists_ fs path then
        text <- open_read fs path ;;
        read_files fs (result_ ++ text) rest
      else read_files fs result_ rest
  end.

Definition files_reader (fs : filesystem) (files : list string) : result string :=
  read_files fs "" files.

(** The parsed command line (lines 80-86). *)
Record args : Type := {
  args_ : list string;
  accessKey : option string;
  secretKey : option string;
  region : string;
  model : string
}.

Definition system_prompt : string :=
  "You're the world class best programmer and you're doing pair programming. You're requeted to code-review. You need pointed out what's problem, the potential risk and the future expansion. And you need to explain how to solve with expected examples. Example code is expected as diff output manner as -:original code +:modified code".

Definition review_request : string :=
  "Please review the following code and please explain the problem and please show the better code about the problematic part." ++ newline.

Section Driver.

Variable repr : pyval -> string.

(** Lines 88-92. *)
Definition input_assembly (w : world) (a : args) : result string :=
  if (0 <? length (args_ a))%nat then files_reader (fs w) (args_ a)
  else Ok (stdin w).

Definition connect (w : world) (a : args) : result bedrock_runtime :=
  boto3_client w (credentials (accessKey a) (secretKey a) (region a)).

(** The [try] block (lines 101-133). *)
Definition try_block (w : world) (a : args) (user_prompt : string) (status : pyval)
    : list string * pyval * result unit :=
  match connect w a with
  | Raise e => ([], status, Raise e)
  | Ok runtime =>
      match generate_message runtime (model a) (VStr system_prompt)
              (user_messages user_prompt) 50000 with
      | Raise e => ([], status, Raise e)
      | Ok (response_messages, status') => ([response_messages], status', Ok tt)
      end
  end.

Definition main (w : world) (a : args) : outcome :=
  match input_assembly w a with
  | Raise e => {| stdout := []; logged := []; exit := Uncaught e |}
  | Ok codes =>
      handle repr (try_block w a (review_request ++ codes) VNone)
  end.

End Driver.

End LlmReview.

(** What one chunk contributes to the two loop variables. *)
Definition fragment (chunk : pyval) : string :=
  if is_text_delta chunk then text_of chunk else "".

Definition next_status (status chunk : pyval) : pyval :=
  if is_message_delta chunk then
    match status_of chunk with
    | Some s => s
    | None => status
    end
  else status.

(** How a run ends when nothing catches [e] before anything is printed,
    and when the client error with [message] is caught. *)
Definition crashed (e : exn) : outcome :=
  {| stdout := []; logged := []; exit := Uncaught e |}.

Definition reported (message : string) : outcome :=
  {| stdout := ["A client error occured: " ++ message; "None"];
     logged := ["A client error occurred: " ++ message];
     exit := Finished |}.

(** ** Example worlds and streams *)

Definition quote : string := String (ascii_of_nat 34) EmptyString.

(** The text of a prompt file with both keys, and of one with the user
    prompt only. *)
Definition both_prompts_text : string :=
  "{" ++ quote ++ "system_prompt" ++ quote ++ ": " ++ quote ++ "Be brief." ++ quote ++ ", "
      ++ quote ++ "user_prompt" ++ quote ++ ": " ++ quote ++ "Summarize:" ++ quote ++ "}".

Definition user_prompt_only_text : string :=
  "{" ++ quote ++ "user_prompt" ++ quote ++ ": " ++ quote ++ "Summarize:" ++ quote ++ "}".

(** [json.loads] on the texts of the example files. *)
Definition example_json_loads (text : string) : result pyval :=
  if String.eqb text both_prompts_text then
    Ok (VDict [("system_prompt", VStr "Be brief."); ("user_prompt", VStr "Summarize:")])
  else if String.eqb text user_prompt_only_text then
    Ok (VDict [("user_prompt", VStr "Summarize:")])
  else if String.eqb text "{}" then Ok (VDict [])
  else Raise JSONDecodeError.

Definition example_repr (v : pyval) : string :=
  match v with
  | VDict [] => "{}"
  | VList [] => "[]"
  | VBool true => "True"
  | VBool false => "False"
  | _ => "<object>"
  end.

Definition example_fs : filesystem := fun path =>
  if String.eqb path "notes.txt" then Some (RegularFile true (Some "hello "))
  else if String.eqb path "main.py" then Some (RegularFile true (Some "print(1)"))
  else if String.eqb path "secret.txt" then Some (RegularFile false (Some "key"))
  else if String.eqb path "src" then Some Directory
  else if String.eqb path "prompt.json" then Some (RegularFile true (Some both_prompts_text))
  else if String.eqb path "user.json" then Some (RegularFile true (Some user_prompt_only_text))
  else if String.eqb path "empty.json" then Some (RegularFile true (Some "{}"))
  else None.

Definition access_denied : pyval :=
  VDict [("Error", VDict [("Message", VStr "Access denied");
                          ("Code", VStr "AccessDeniedException")])].

(** A world whose SDK echoes the user message, and one whose SDK refuses
    every call. *)
Definition echo_world : world :=
  {| fs := example_fs; stdin := "from stdin"; boto3_client := fun _ => Ok echoing |}.

Definition denied_world : world :=
  {| fs := example_fs; stdin := "from stdin";
     boto3_client := fun _ => Ok (failing (ClientError access_denied)) |}.

Definition cli_args (files : list string) (systemprompt_ prompt_ promptfile_ : option string)
    : Claude3Cli.args :=
  {| Claude3Cli.args_ := files;
     Claude3Cli.accessKey := None;
     Claude3Cli.secretKey := None;
     Claude3Cli.region := "us-west-2";
     Claude3Cli.model := "anthropic.claude-3-sonnet-20240229-v1:0";
     Claude3Cli.maxTokens := 50000;
     Claude3Cli.systemprompt := systemprompt_;
     Claude3Cli.prompt := prompt_;
     Claude3Cli.promptfile := promptfile_ |}.

Definition review_args (files : list string) : LlmReview.args :=
  {| LlmReview.args_ := files;
     LlmReview.accessKey := None;
     LlmReview.secretKey := None;
     LlmReview.region := "us-west-2";
     LlmReview.model := "anthropic.claude-3-sonnet-20240229-v1:0" |}.

(** Paths the generic [files_reader] goes through without raising: not a
    regular file for [os.path.isfile], or a readable one with UTF-8 text. *)
Definition passes (fs : filesystem) (path : string) : bool :=
  negb (isfile fs path) || readable_file fs path.

(** For the review [files_reader], which tests existence: the paths that do
    not exist or name a readable regular file with UTF-8 text. *)
Definition passes_review (fs : filesystem) (path : string) : bool :=
  negb (exists_ fs path) || readable_file fs path.

(** The concatenation, in order, of the text of the paths that name an
    existing readable file. *)
Definition texts (fs : filesystem) (files : list string) : string :=
  join (map (file_text fs) (filter (readable_file fs) files)).

Definition end_turn_status : pyval :=
  VDict [("stop_reason", VStr "end_turn"); ("stop_sequence", VNone);
         ("output_tokens", VInt 5)].

Definition status_only_stream : list pyval :=
  [message_delta_chunk (VStr "max_tokens") VNone 7;
   message_delta_chunk (VStr "end_turn") VNone 5].

Definition noisy_stream : list pyval :=
  [VDict [("type", VStr "message_start")]; ping_chunk;
   text_delta_chunk "Hello, "; input_json_delta_chunk; text_delta_chunk "world!";
   VDict [("type", VStr "content_block_stop"); ("index", VInt 0)];
   message_delta_chunk (VStr "end_turn") VNone 5;
   VDict [("type", VStr "message_stop")]].

Definition sonnet : string := "anthropic.claude-3-sonnet-20240229-v1:0".

(** ** Further vocabulary for the drivers *)


(** The exceptions the subscripts and the [+=] of the scripts raise. *)
Definition lookup_error (e : exn) : bool :=
  match e with
  | KeyError _ | TypeError => true
  | _ => false
  end.

(** How a run ends when the answer [text] is printed. *)
Definition answered (text : string) : outcome :=
  {| stdout := [text]; logged := []; exit := Finished |}.

(** The resolved value of a prompt: the flag when given, else the file's. *)
Definition flag_or (flag : option string) (from_file : pyval) : pyval :=
  match flag with
  | Some s => VStr s
  | None => from_file
  end.

(** Worlds over [example_fs] with a given SDK. *)
Definition world_with (runtime : bedrock_runtime) : world :=
  {| fs := example_fs; stdin := "from stdin"; boto3_client := fun _ => Ok runtime |}.

Definition refusing_world : world :=
  {| fs := example_fs; stdin := "from stdin";
     boto3_client := fun _ => Raise (ClientError access_denied) |}.

(** A stream that breaks after its first fragment: the second chunk has no
    ["type"]. *)
Definition broken_stream : list pyval :=
  [text_delta_chunk "Hello, "; VDict [("delta", VDict [("text", VStr "lost")])];
   text_delta_chunk "world!"].

(** An error response without a message. *)
Definition no_message : pyval :=
  VDict [("Error", VDict [("Code", VStr "ThrottlingException")])].

(** [example_fs] with a pipe, and with a regular file that cannot be read. *)
Definition pipe_fs : filesystem := fun path =>
  if String.eqb path "/dev/stdin" then Some (Special (Ok "piped "))
  else example_fs path.

Definition faulty_fs : filesystem := fun path =>
  if String.eqb path "/proc/self/mem" then Some (FaultyFile "EIO")
  else example_fs path.


(** The conditions under which the generic driver reaches the streaming
    call and gets [answer] from it, and the same for the review driver. *)
Definition cli_call (json_loads : string -> result pyval) (w : world)
    (a : Claude3Cli.args) (runtime : bedrock_runtime)
    (answer : result (list pyval)) : Prop :=
  exists system_prompt user_prompt,
    Claude3Cli.prepare json_loads w a = Ok (system_prompt, user_prompt) /\
    Claude3Cli.connect w a = Ok runtime /\
    invoke_model_with_response_stream runtime
      (make_body (Claude3Cli.token_budget a) system_prompt (user_messages user_prompt))
      (Claude3Cli.model a) = answer.

Definition review_call (w : world) (a : LlmReview.args) (runtime : bedrock_runtime)
    (answer : result (list pyval)) : Prop :=
  exists codes,
    LlmReview.input_assembly w a = Ok codes /\
    LlmReview.connect w a = Ok runtime /\
    invoke_model_with_response_stream runtime
      (make_body 50000 (VStr LlmReview.system_prompt)
         (user_messages (LlmReview.review_request ++ codes)))
      (LlmReview.model a) = answer.

(** * Proofs *)

(** ** The loop body, chunk by chunk *)

Lemma append_nil_r (s : string) : s ++ "" = s.
Proof. induction s as [|c s IH]; cbn; [reflexivity | now rewrite IH]. Qed.

Lemma append_assoc (s t u : string) : (s ++ t) ++ u = s ++ (t ++ u).
Proof. induction s as [|c s IH]; cbn; [reflexivity | now rewrite IH]. Qed.

Lemma getitem_field (v : pyval) (key : string) :
  getitem v key =
  match field v key with
  | Some x => Ok x
  | None => Raise (match v with VDict _ => KeyError key | _ => TypeError end)
  end.
Proof.
  destruct v; reflexivity.
Qed.

Lemma eq_str_true (v : pyval) (s : string) :
  eq_str v s = true -> v = VStr s.
Proof.
  destruct v; cbn; try discriminate.
  intros H. apply String.eqb_eq in H. now subst.
Qed.

Ltac chunk_step :=
  match goal with
  | H : eq_str _ _ = true |- _ => apply eq_str_true in H; subst
  | |- context [getitem ?v ?k] => rewrite (getitem_field v k)
  | |- context [match field ?v ?k with _ => _ end] =>
      destruct (field v k) eqn:?
  | |- context [if eq_str ?v ?s then _ else _] =>
      destruct (eq_str v s) eqn:?
  | |- context [match ?v with VNone => _ | _ => _ end] =>
      is_var v; destruct v
  end; cbn.

Ltac chunk_cases := cbn; repeat chunk_step.

Lemma on_chunk_well_formed (r : string) (st chunk : pyval) :
  well_formed chunk = true ->
  on_chunk (r, st) chunk = Ok (r ++ fragment chunk, next_status st chunk).
Proof.
  unfold well_formed, on_chunk, fragment, next_status, is_text_delta,
    is_message_delta, has_type, status_of, text_of, iadd_str.
  chunk_cases.
  all: rewrite ?append_nil_r; try discriminate; try reflexivity.
Qed.

Lemma on_chunk_ok_well_formed (acc acc' : string * pyval) (chunk : pyval) :
  on_chunk acc chunk = Ok acc' -> well_formed chunk = true.
Proof.
  destruct acc as [r st].
  unfold well_formed, on_chunk, status_of, iadd_str.
  chunk_cases.
  all: try discriminate; try reflexivity.
Qed.

(** An ill-formed chunk raises whatever the loop variables hold. *)
Lemma on_chunk_ill_formed (chunk : pyval) :
  well_formed chunk = false ->
  exists e, forall acc, on_chunk acc chunk = Raise e.
Proof.
  unfold well_formed, on_chunk, status_of, iadd_str.
  chunk_cases.
  all: try discriminate.
  all: intros _; eexists; intros [r st]; cbn; chunk_cases; reflexivity.
Qed.

Lemma on_chunk_ignorable (acc : string * pyval) (chunk : pyval) :
  ignorable chunk = true -> on_chunk acc chunk = Ok acc.
Proof.
  destruct acc as [r st].
  unfold ignorable, on_chunk.
  chunk_cases.
  all: try discriminate; try reflexivity.
Qed.

Lemma ignorable_not_recognized (chunk : pyval) :
  ignorable chunk = true -> recognized chunk = false.
Proof.
  unfold ignorable, recognized, is_message_delta, is_text_delta, has_type.
  chunk_cases.
  all: try discriminate; try reflexivity.
  intros H. now apply negb_true_iff in H.
Qed.

Lemma ignorable_well_formed (chunk : pyval) :
  ignorable chunk = true -> well_formed chunk = true.
Proof.
  intros H. apply (on_chunk_ok_well_formed ("", VNone) ("", VNone)).
  now apply on_chunk_ignorable.
Qed.

(** A well-formed chunk is of a recognised shape or ignorable. *)
Lemma well_formed_split (chunk : pyval) :
  well_formed chunk = true -> ignorable chunk = negb (recognized chunk).
Proof.
  unfold well_formed, ignorable, recognized, is_message_delta, is_text_delta,
    has_type, status_of.
  chunk_cases.
  all: try discriminate; try reflexivity.
Qed.

(** ** The loop over a whole stream *)

Lemma accumulated_text_cons (chunk : pyval) (events : list pyval) :
  accumulated_text (chunk :: events) = fragment chunk ++ accumulated_text events.
Proof.
  unfold accumulated_text, fragment. cbn.
  destruct (is_text_delta chunk); reflexivity.
Qed.

Lemma consume_well_formed (events : list pyval) :
  forall (r : string) (st : pyval),
    forallb well_formed events = true ->
    consume (r, st) events =
    Ok (r ++ accumulated_text events, fold_left next_status events st).
Proof.
  induction events as [|chunk events IH]; intros r st Hwf.
  - cbn. now rewrite append_nil_r.
  - cbn in Hwf. apply andb_true_iff in Hwf as [Hc Hrest].
    cbn [consume]. rewrite (on_chunk_well_formed r st chunk Hc). cbn [bind].
    rewrite (IH _ _ Hrest), accumulated_text_cons, append_assoc.
    reflexivity.
Qed.

Lemma consume_ok_well_formed (events : list pyval) :
  forall acc acc', consume acc events = Ok acc' -> forallb well_formed events = true.
Proof.
  induction events as [|chunk events IH]; intros acc acc' H; [reflexivity|].
  cbn in H. destruct (on_chunk acc chunk) as [acc1|e] eqn:Hc; [|discriminate].
  cbn in H. cbn. rewrite (on_chunk_ok_well_formed _ _ _ Hc). cbn. eauto.
Qed.

(** The loop raises exactly when some chunk is ill-formed. *)
Lemma consume_ill_formed (events : list pyval) :
  forallb well_formed events = false ->
  forall acc, exists e, consume acc events = Raise e.
Proof.
  intros H acc. destruct (consume acc events) as [acc'|e] eqn:Hc; [|eauto].
  apply consume_ok_well_formed in Hc. congruence.
Qed.

Lemma last_message_delta_snoc (events : list pyval) (chunk : pyval) :
  last_message_delta (events ++ [chunk]) =
  if is_message_delta chunk then Some chunk else last_message_delta events.
Proof.
  unfold last_message_delta. rewrite rev_app_distr. reflexivity.
Qed.

Lemma well_formed_status (chunk : pyval) :
  well_formed chunk = true -> is_message_delta chunk = true ->
  exists s, status_of chunk = Some s.
Proof.
  unfold well_formed, is_message_delta, has_type.
  destruct (field chunk "type") as [ty|]; [|discriminate].
  intros Hwf Hty. rewrite Hty in Hwf.
  destruct (status_of chunk) as [s|]; [eauto | discriminate].
Qed.

(** Folding [next_status] over a well-formed stream leaves the status of
    its last [message_delta] chunk. *)
Lemma fold_next_status (events : list pyval) (st : pyval) :
  forallb well_formed events = true ->
  Some (fold_left next_status events st) =
  match last_message_delta events with
  | Some chunk => status_of chunk
  | None => Some st
  end.
Proof.
  induction events as [|chunk events IH] using rev_ind; intros Hwf; [reflexivity|].
  rewrite forallb_app in Hwf. apply andb_true_iff in Hwf as [Hrest Hc].
  cbn in Hc. rewrite andb_true_r in Hc.
  rewrite fold_left_app, last_message_delta_snoc. cbn.
  unfold next_status at 1.
  destruct (is_message_delta chunk) eqn:Hmd.
  - destruct (well_formed_status chunk Hc Hmd) as [s Hs]. now rewrite Hs.
  - now apply IH.
Qed.

Lemma consume_spec (events : list pyval) (r : string) (st : pyval) :
  consume ("", VDict []) events = Ok (r, st) ->
  r = accumulated_text events /\ final_status events = Some st.
Proof.
  intros H. pose proof (consume_ok_well_formed _ _ _ H) as Hwf.
  rewrite (consume_well_formed events "" (VDict []) Hwf) in H.
  injection H as Hr Hst. cbn in Hr. split; [now subst|].
  unfold final_status. rewrite <- (fold_next_status events (VDict []) Hwf).
  now subst.
Qed.

(** Dropping the ignorable chunks changes nothing, not even an error. *)
Lemma consume_filter (events : list pyval) :
  forall acc,
    consume acc events = consume acc (filter (fun c => negb (ignorable c)) events).
Proof.
  induction events as [|chunk events IH]; intros acc; [reflexivity|].
  cbn. destruct (ignorable chunk) eqn:Hi; cbn.
  - rewrite (on_chunk_ignorable acc chunk Hi). cbn. apply IH.
  - destruct (on_chunk acc chunk); cbn; [apply IH | reflexivity].
Qed.

Lemma consume_insert (pre post : list pyval) (chunk : pyval) :
  ignorable chunk = true ->
  forall acc, consume acc (pre ++ chunk :: post)%list = consume acc (pre ++ post)%list.
Proof.
  intros Hi. induction pre as [|c pre IH]; intros acc; cbn.
  - now rewrite (on_chunk_ignorable acc chunk Hi).
  - destruct (on_chunk acc c); cbn; [apply IH | reflexivity].
Qed.

Lemma filter_recognized (events : list pyval) :
  forallb well_formed events = true ->
  filter (fun c => negb (ignorable c)) events = filter recognized events.
Proof.
  induction events as [|chunk events IH]; intros Hwf; [reflexivity|].
  cbn in Hwf. apply andb_true_iff in Hwf as [Hc Hrest].
  cbn. rewrite (well_formed_split chunk Hc), negb_involutive, (IH Hrest).
  reflexivity.
Qed.

Lemma last_message_delta_split (pre post : list pyval) (chunk : pyval) :
  is_message_delta chunk = true ->
  existsb is_message_delta post = false ->
  last_message_delta (pre ++ chunk :: post)%list = Some chunk.
Proof.
  intros Hc. induction post as [|x post IH] using rev_ind; intros Hpost.
  - rewrite last_message_delta_snoc. now rewrite Hc.
  - rewrite existsb_app in Hpost. apply orb_false_iff in Hpost as [Hp Hx].
    cbn in Hx. rewrite orb_false_r in Hx.
    change (pre ++ chunk :: post ++ [x])%list with (pre ++ (chunk :: post) ++ [x])%list.
    rewrite app_assoc, last_message_delta_snoc, Hx. now apply IH.
Qed.

Lemma last_message_delta_none (events : list pyval) :
  existsb is_message_delta events = false -> last_message_delta events = None.
Proof.
  induction events as [|x events IH] using rev_ind; intros H; [reflexivity|].
  rewrite existsb_app in H. apply orb_false_iff in H as [Hp Hx].
  cbn in Hx. rewrite orb_false_r in Hx.
  rewrite last_message_delta_snoc, Hx. now apply IH.
Qed.

Lemma message_delta_not_text (chunk : pyval) :
  is_message_delta chunk = true -> is_text_delta chunk = false.
Proof.
  unfold is_message_delta, is_text_delta, has_type.
  chunk_cases; try discriminate; try reflexivity.
  all: intros H; apply eq_str_true in H; subst; reflexivity.
Qed.

Lemma only_message_delta_text (events : list pyval) :
  forallb is_message_delta events = true -> accumulated_text events = "".
Proof.
  induction events as [|c events IH]; intros H; [reflexivity|].
  cbn in H. apply andb_true_iff in H as [Hc Hrest].
  rewrite accumulated_text_cons. unfold fragment.
  rewrite (message_delta_not_text c Hc). now apply IH.
Qed.

Lemma only_message_delta_last (events : list pyval) :
  events <> [] -> forallb is_message_delta events = true ->
  exists chunk, last_message_delta events = Some chunk.
Proof.
  destruct events as [|x events] using rev_ind; intros Hne H; [congruence|].
  rewrite forallb_app in H. apply andb_true_iff in H as [_ Hx].
  cbn in Hx. rewrite andb_true_r in Hx.
  rewrite last_message_delta_snoc, Hx. eauto.
Qed.

Lemma status_of_populated (chunk st : pyval) :
  status_of chunk = Some st ->
  exists sr ss ot,
    st = VDict [("stop_reason", sr); ("stop_sequence", ss); ("output_tokens", ot)].
Proof.
  unfold status_of.
  chunk_cases; try discriminate.
  intros H. injection H as <-. eauto.
Qed.

Lemma generate_message_stream runtime model_id system_prompt messages_ max_tokens_ events :
  invoke_model_with_response_stream runtime
    (make_body max_tokens_ system_prompt messages_) model_id = Ok events ->
  generate_message runtime model_id system_prompt messages_ max_tokens_ =
  consume ("", VDict []) events.
Proof.
  intros H. unfold generate_message. cbn zeta. now rewrite H.
Qed.

(** ** The streaming client: accumulated text and final status *)

Section Stream.

Variables (runtime : bedrock_runtime) (model_id : string)
          (system_prompt messages_ : pyval) (max_tokens_ : Z).
Variable events : list pyval.
Hypothesis Hstream :
  invoke_model_with_response_stream runtime
    (make_body max_tokens_ system_prompt messages_) model_id = Ok events.

Local Abbreviation run :=
  (generate_message runtime model_id system_prompt messages_ max_tokens_).

(** C1: the text [generate_message] returns is the concatenation, in
    stream order, of the [delta.text] of exactly the chunks of type
    [content_block_delta] with [delta.type] [text_delta]: it returns on
    every stream of well-formed chunks, and whenever it returns the text
    is that concatenation.  On the scripted stream "Hello, ", "world!",
    then a [message_delta] with [end_turn], [null] and 5, the text is
    "Hello, world!" and the status is that record. *)
Theorem generate_message_text :
  (forallb well_formed events = true ->
   exists st, run = Ok (accumulated_text events, st)) /\
  (forall r st, run = Ok (r, st) -> r = accumulated_text events) /\
  (events = hello_stream ->
   run = Ok ("Hello, world!",
             VDict [("stop_reason", VStr "end_turn");
                    ("stop_sequence", VNone);
                    ("output_tokens", VInt 5)])).
Proof.
  rewrite (generate_message_stream _ _ _ _ _ _ Hstream).
  split; [|split].
  - intros Hwf. rewrite (consume_well_formed _ _ _ Hwf). cbn. eauto.
  - intros r st H. now apply consume_spec in H.
  - intros ->. reflexivity.
Qed.

(** C2: the status [generate_message] returns is the record of the three
    fields of the last [message_delta] chunk of the stream, each such chunk
    replacing the record, and the empty record when the stream has no such
    chunk; a non-empty stream of [message_delta] chunks only gives the empty
    text and a populated status. *)
Theorem generate_message_status :
  (forallb well_formed events = true ->
   exists r st, run = Ok (r, st) /\ final_status events = Some st) /\
  (forall r st, run = Ok (r, st) ->
     final_status events = Some st /\
     (forall pre chunk post,
         events = (pre ++ chunk :: post)%list ->
         is_message_delta chunk = true ->
         existsb is_message_delta post = false ->
         status_of chunk = Some st) /\
     (existsb is_message_delta events = false -> st = VDict []) /\
     (events <> [] -> forallb is_message_delta events = true ->
      r = "" /\
      exists sr ss ot,
        st = VDict [("stop_reason", sr); ("stop_sequence", ss);
                    ("output_tokens", ot)])).
Proof.
  rewrite (generate_message_stream _ _ _ _ _ _ Hstream).
  split.
  - intros Hwf. rewrite (consume_well_formed _ _ _ Hwf).
    do 2 eexists. split; [reflexivity|].
    unfold final_status. now rewrite <- (fold_next_status _ _ Hwf).
  - intros r st H. apply consume_spec in H as [Hr Hst].
    split; [assumption|]. split; [|split].
    + intros pre chunk post -> Hc Hpost.
      unfold final_status in Hst.
      now rewrite (last_message_delta_split pre post chunk Hc Hpost) in Hst.
    + intros Hnone. unfold final_status in Hst.
      rewrite (last_message_delta_none _ Hnone) in Hst. congruence.
    + intros Hne Hall. split.
      * rewrite Hr. now apply only_message_delta_text.
      * destruct (only_message_delta_last _ Hne Hall) as [chunk Hlast].
        unfold final_status in Hst. rewrite Hlast in Hst.
        now apply status_of_populated in Hst.
Qed.

(** C8: chunks whose discriminant is neither [message_delta] nor
    [content_block_delta], and [content_block_delta] chunks whose
    [delta.type] is not [text_delta], can be inserted or removed at any
    position without changing what [generate_message] returns, text and
    status: the result on a stream is the result on the stream without
    them, which for well-formed chunks is the stream restricted to the two
    recognised shapes. *)
Theorem generate_message_ignores_other_chunks :
  forall runtime' events',
    invoke_model_with_response_stream runtime'
      (make_body max_tokens_ system_prompt messages_) model_id = Ok events' ->
    (forall pre chunk post,
        ignorable chunk = true ->
        events = (pre ++ chunk :: post)%list -> events' = (pre ++ post)%list ->
        generate_message runtime' model_id system_prompt messages_ max_tokens_ = run) /\
    (events' = filter (fun c => negb (ignorable c)) events ->
     generate_message runtime' model_id system_prompt messages_ max_tokens_ = run) /\
    (forallb well_formed events = true -> events' = filter recognized events ->
     generate_message runtime' model_id system_prompt messages_ max_tokens_ = run).
Proof.
  intros runtime' events' Hstream'.
  rewrite (generate_message_stream _ _ _ _ _ _ Hstream).
  rewrite (generate_message_stream _ _ _ _ _ _ Hstream').
  split; [|split].
  - intros pre chunk post Hi -> ->. symmetry. now apply consume_insert.
  - intros ->. symmetry. apply consume_filter.
  - intros Hwf ->. rewrite <- (filter_recognized _ Hwf).
    symmetry. apply consume_filter.
Qed.

End Stream.

(** ** Input assembly *)

Lemma texts_cons (fs : filesystem) (path : string) (files : list string) :
  texts fs (path :: files) = file_text fs path ++ texts fs files.
Proof.
  unfold texts. cbn [filter].
  destruct (readable_file fs path) eqn:E; [reflexivity|].
  unfold file_text, readable_file in *.
  destruct (fs path) as [[[] []| | errno | read]|]; try discriminate; reflexivity.
Qed.

Ltac node_cases fs path :=
  unfold passes, passes_review, isfile, exists_, readable_file, unreadable_file,
    file_text, open_read in *;
  destruct (fs path) as [[[] []| | errno | read]|]; cbn in *.

Lemma cli_read_files_passes (fs : filesystem) (files : list string) :
  forall r, forallb (passes fs) files = true ->
            Claude3Cli.read_files fs r files = Ok (r ++ texts fs files).
Proof.
  induction files as [|path files IH]; intros r H.
  - cbn. now rewrite append_nil_r.
  - cbn in H. apply andb_true_iff in H as [Hp Hrest].
    rewrite texts_cons. cbn [Claude3Cli.read_files].
    specialize (IH (r ++ file_text fs path) Hrest).
    rewrite append_assoc in IH.
    node_cases fs path; try discriminate;
      rewrite ?append_nil_r in IH; assumption.
Qed.

Lemma cli_read_files_ok (fs : filesystem) (files : list string) :
  forall r r', Claude3Cli.read_files fs r files = Ok r' ->
               forallb (passes fs) files = true.
Proof.
  induction files as [|path files IH]; intros r r' H; [reflexivity|].
  cbn in H. cbn. apply andb_true_iff.
  node_cases fs path; try discriminate; eauto.
Qed.

Lemma cli_read_files_skip (fs : filesystem) (pre post : list string) (path : string) :
  isfile fs path = false ->
  forall r, Claude3Cli.read_files fs r (pre ++ path :: post)%list =
            Claude3Cli.read_files fs r (pre ++ post)%list.
Proof.
  intros Hp. induction pre as [|q pre IH]; intros r; cbn.
  - now rewrite Hp.
  - destruct (isfile fs q); [|apply IH].
    destruct (open_read fs q); cbn; [apply IH | reflexivity].
Qed.

Lemma review_read_files_passes (fs : filesystem) (files : list string) :
  forall r, forallb (passes_review fs) files = true ->
            LlmReview.read_files fs r files = Ok (r ++ texts fs files).
Proof.
  induction files as [|path files IH]; intros r H.
  - cbn. now rewrite append_nil_r.
  - cbn in H. apply andb_true_iff in H as [Hp Hrest].
    rewrite texts_cons. cbn [LlmReview.read_files].
    specialize (IH (r ++ file_text fs path) Hrest).
    rewrite append_assoc in IH.
    node_cases fs path; try discriminate;
      rewrite ?append_nil_r in IH; assumption.
Qed.

Lemma review_read_files_ok (fs : filesystem) (files : list string) :
  forall r r', LlmReview.read_files fs r files = Ok r' ->
               forallb (fun p => negb (exists_ fs p) || is_ok (open_read fs p)) files = true.
Proof.
  induction files as [|path files IH]; intros r r' H; [reflexivity|].
  cbn in H. cbn. apply andb_true_iff.
  destruct (exists_ fs path); cbn; [|eauto].
  destruct (open_read fs path); cbn in *; [eauto | discriminate].
Qed.

Lemma cli_read_files_app (fs : filesystem) (pre rest : list string) :
  forall r, forallb (passes fs) pre = true ->
            Claude3Cli.read_files fs r (pre ++ rest)%list =
            Claude3Cli.read_files fs (r ++ texts fs pre) rest.
Proof.
  induction pre as [|q pre IH]; intros r H.
  - cbn. now rewrite append_nil_r.
  - cbn in H. apply andb_true_iff in H as [Hq Hpre].
    rewrite texts_cons, <- append_assoc. cbn [app Claude3Cli.read_files].
    specialize (IH (r ++ file_text fs q) Hpre).
    node_cases fs q; try discriminate;
      rewrite ?append_nil_r in *; assumption.
Qed.

Lemma review_read_files_app (fs : filesystem) (pre rest : list string) :
  forall r, forallb (passes_review fs) pre = true ->
            LlmReview.read_files fs r (pre ++ rest)%list =
            LlmReview.read_files fs (r ++ texts fs pre) rest.
Proof.
  induction pre as [|q pre IH]; intros r H.
  - cbn. now rewrite append_nil_r.
  - cbn in H. apply andb_true_iff in H as [Hq Hpre].
    rewrite texts_cons, <- append_assoc. cbn [app LlmReview.read_files].
    specialize (IH (r ++ file_text fs q) Hpre).
    node_cases fs q; try discriminate;
      rewrite ?append_nil_r in *; assumption.
Qed.

Lemma unreadable_not_passes (fs : filesystem) (path : string) :
  unreadable_file fs path = true ->
  passes fs path = false /\ passes_review fs path = false /\
  isfile fs path = true /\ exists_ fs path = true /\
  open_read fs path = Raise PermissionError.
Proof.
  node_cases fs path; try discriminate; auto.
Qed.

(** The two [files_reader] agree on the paths where the two tests agree. *)
Lemma files_reader_agree (fs : filesystem) (files : list string) :
  forallb (fun p => Bool.eqb (isfile fs p) (exists_ fs p)) files = true ->
  Claude3Cli.files_reader fs files = LlmReview.files_reader fs files.
Proof.
  unfold Claude3Cli.files_reader, LlmReview.files_reader.
  generalize "". induction files as [|path files IH]; intros r H; [reflexivity|].
  cbn in H. apply andb_true_iff in H as [Hp Hrest].
  apply eqb_prop in Hp. cbn. rewrite <- Hp.
  destruct (isfile fs path); [|now apply IH].
  destruct (open_read fs path); cbn; [now apply IH | reflexivity].
Qed.

(** C3, as the code has it: on the generic client, when every path either
    does not pass [os.path.isfile] or names a readable regular file with
    UTF-8 text, the assembled input is the concatenation, in argument order,
    of the whole text of exactly the readable files.  For every list of
    paths, a path that does not exist contributes nothing wherever it
    stands, and with no path at all the input is the whole standard
    input. *)
Theorem input_assembly_concatenates (w : world) (a : Claude3Cli.args) :
  (forallb (passes (fs w)) (Claude3Cli.args_ a) = true ->
   Claude3Cli.input_assembly w a =
     Ok (match Claude3Cli.args_ a with
         | [] => stdin w
         | _ => texts (fs w) (Claude3Cli.args_ a)
         end)) /\
  (Claude3Cli.args_ a = [] -> Claude3Cli.input_assembly w a = Ok (stdin w)) /\
  (forall missing position,
      fs w missing = None ->
      Claude3Cli.files_reader (fs w)
        (firstn position (Claude3Cli.args_ a) ++ missing ::
         skipn position (Claude3Cli.args_ a))%list =
      Claude3Cli.files_reader (fs w) (Claude3Cli.args_ a)).
Proof.
  unfold Claude3Cli.input_assembly. split; [|split].
  - intros H. destruct (Claude3Cli.args_ a) as [|p files] eqn:E; [reflexivity|].
    cbn [length Nat.ltb Nat.leb]. unfold Claude3Cli.files_reader.
    now rewrite (cli_read_files_passes _ _ "" H).
  - intros ->. reflexivity.
  - intros missing position Hm. unfold Claude3Cli.files_reader.
    rewrite cli_read_files_skip.
    + now rewrite firstn_skipn.
    + unfold isfile. now rewrite Hm.
Qed.

(** C9, as the code has it: a path that passes the existence test and
    names a regular file which [open] refuses to read is not skipped.
    Neither [files_reader] returns a text on a list holding it, and when the
    paths before it are read without error, the [PermissionError] of [open]
    is what the caller gets. *)
Theorem unreadable_file_raises (fs : filesystem) (pre post : list string) (path : string) :
  unreadable_file fs path = true ->
  (forallb (passes fs) pre = true ->
   Claude3Cli.files_reader fs (pre ++ path :: post)%list = Raise PermissionError) /\
  (forallb (passes_review fs) pre = true ->
   LlmReview.files_reader fs (pre ++ path :: post)%list = Raise PermissionError) /\
  is_ok (Claude3Cli.files_reader fs (pre ++ path :: post)%list) = false /\
  is_ok (LlmReview.files_reader fs (pre ++ path :: post)%list) = false.
Proof.
  intros Hu. destruct (unreadable_not_passes fs path Hu) as (Hp & Hpr & Hf & He & Hopen).
  unfold Claude3Cli.files_reader, LlmReview.files_reader.
  repeat split.
  - intros Hpre. rewrite (cli_read_files_app _ _ _ _ Hpre). cbn.
    now rewrite Hf, Hopen.
  - intros Hpre. rewrite (review_read_files_app _ _ _ _ Hpre). cbn.
    now rewrite He, Hopen.
  - destruct (Claude3Cli.read_files fs "" (pre ++ path :: post)) eqn:E; [|reflexivity].
    apply cli_read_files_ok in E. rewrite forallb_app in E. cbn in E.
    rewrite Hp in E. now rewrite andb_false_r in E.
  - destruct (LlmReview.read_files fs "" (pre ++ path :: post)) eqn:E; [|reflexivity].
    apply review_read_files_ok in E. rewrite forallb_app in E. cbn in E.
    rewrite He, Hopen in E. now rewrite andb_false_r in E.
Qed.

Lemma input_assembly_concatenates_witness :
  forallb (passes (fs echo_world)) ["notes.txt"; "missing.txt"; "main.py"] = true /\
  Claude3Cli.input_assembly echo_world
    (cli_args ["notes.txt"; "missing.txt"; "main.py"] None None None) =
  Ok "hello print(1)".
Proof.
  split; [reflexivity|].
  exact (proj1 (input_assembly_concatenates echo_world
                  (cli_args ["notes.txt"; "missing.txt"; "main.py"] None None None))
               eq_refl).
Defined.

(** C3 as the claim has it fails: [secret.txt] exists and may not be read,
    so the readable files among [notes.txt] and [secret.txt] hold the text
    "hello "; the input assembly does not produce it, it raises. *)
Lemma input_assembly_unreadable_counterexample :
  texts (fs echo_world) ["notes.txt"; "secret.txt"] = "hello " /\
  Claude3Cli.input_assembly echo_world
    (cli_args ["notes.txt"; "secret.txt"] None None None) <> Ok "hello " /\
  Claude3Cli.input_assembly echo_world
    (cli_args ["notes.txt"; "secret.txt"] None None None) = Raise PermissionError.
Proof.
  repeat split; try reflexivity; discriminate.
Qed.

(** C9 as the claim has it fails: with the unreadable [secret.txt] after
    the readable [notes.txt], neither [files_reader] returns the text of
    [notes.txt] alone; both raise. *)
Lemma unreadable_file_not_skipped :
  unreadable_file example_fs "secret.txt" = true /\
  Claude3Cli.files_reader example_fs ["notes.txt"] = Ok "hello " /\
  Claude3Cli.files_reader example_fs ["notes.txt"; "secret.txt"] <> Ok "hello " /\
  Claude3Cli.files_reader example_fs ["notes.txt"; "secret.txt"] = Raise PermissionError /\
  LlmReview.files_reader example_fs ["notes.txt"; "secret.txt"] <> Ok "hello " /\
  LlmReview.files_reader example_fs ["notes.txt"; "secret.txt"] = Raise PermissionError.
Proof.
  repeat split; try reflexivity; discriminate.
Qed.

Lemma unreadable_file_raises_witness :
  unreadable_file example_fs "secret.txt" = true /\
  Claude3Cli.files_reader example_fs ["notes.txt"; "secret.txt"; "main.py"] =
    Raise PermissionError /\
  LlmReview.files_reader example_fs ["notes.txt"; "secret.txt"; "main.py"] =
    Raise PermissionError.
Proof.
  pose proof (unreadable_file_raises example_fs ["notes.txt"] ["main.py"] "secret.txt"
                eq_refl) as (Hcli & Hreview & _).
  split; [reflexivity|]. split; [exact (Hcli eq_refl) | exact (Hreview eq_refl)].
Defined.

(** C10 fails on a directory: the generic [files_reader] tests [isfile] and
    skips it, the review [files_reader] tests [exists], opens it and raises
    [IsADirectoryError]. *)
Theorem files_reader_differ_on_directory (fs : filesystem) (path : string) :
  fs path = Some Directory ->
  Claude3Cli.files_reader fs [path] = Ok "" /\
  LlmReview.files_reader fs [path] = Raise IsADirectoryError.
Proof.
  intros H. unfold Claude3Cli.files_reader, LlmReview.files_reader. cbn.
  unfold isfile, exists_, open_read. now rewrite H.
Qed.

Lemma files_reader_differ_on_directory_witness :
  example_fs "src" = Some Directory /\
  Claude3Cli.files_reader example_fs ["src"] = Ok "" /\
  LlmReview.files_reader example_fs ["src"] = Raise IsADirectoryError.
Proof.
  split; [reflexivity|].
  exact (files_reader_differ_on_directory example_fs "src" eq_refl).
Defined.

(** ** Prompt loading and resolution (generic client) *)

Section Prompts.

Variable json_loads : string -> result pyval.
Variable repr : pyval -> string.

Local Abbreviation read_prompt_json := (Claude3Cli.read_prompt_json json_loads).
Local Abbreviation resolve_prompts := (Claude3Cli.resolve_prompts json_loads).
Local Abbreviation prepare := (Claude3Cli.prepare json_loads).
Local Abbreviation main := (Claude3Cli.main json_loads repr).

(** A path that does not name a file gives two absent prompts. *)
Lemma read_prompt_json_missing (fs : filesystem) (path : string) :
  isfile fs path = false -> read_prompt_json fs (Some path) = Ok (VNone, VNone).
Proof.
  intros H. unfold Claude3Cli.read_prompt_json. cbn. now rewrite H.
Qed.

(** A file holding a JSON object gives the two keys, each absent when the
    object does not have it. *)
Lemma read_prompt_json_object (fs : filesystem) (path text : string)
    (items : list (string * pyval)) :
  fs path = Some (RegularFile true (Some text)) ->
  json_loads text = Ok (VDict items) ->
  read_prompt_json fs (Some path) =
  Ok (match dict_get "system_prompt" items with Some v => v | None => VNone end,
      match dict_get "user_prompt" items with Some v => v | None => VNone end).
Proof.
  intros Hfs Hjson.
  assert (Hfile : isfile fs path = true) by (unfold isfile; now rewrite Hfs).
  assert (Hread : open_read fs path = Ok text) by (unfold open_read; now rewrite Hfs).
  unfold Claude3Cli.read_prompt_json. cbn.
  rewrite Hfile, Hread. cbn. rewrite Hjson. cbn.
  destruct (dict_get "system_prompt" items), (dict_get "user_prompt" items);
    reflexivity.
Qed.

(** A file whose JSON is a number, a boolean or [null] has no keys to
    test: [in] raises [TypeError]. *)
Lemma read_prompt_json_scalar (fs : filesystem) (path text : string) (v : pyval) :
  fs path = Some (RegularFile true (Some text)) ->
  json_loads text = Ok v ->
  contains "system_prompt" v = Raise TypeError ->
  read_prompt_json fs (Some path) = Raise TypeError.
Proof.
  intros Hfs Hjson Hin.
  assert (Hfile : isfile fs path = true) by (unfold isfile; now rewrite Hfs).
  assert (Hread : open_read fs path = Ok text) by (unfold open_read; now rewrite Hfs).
  unfold Claude3Cli.read_prompt_json. cbn.
  rewrite Hfile, Hread. cbn. rewrite Hjson. cbn. now rewrite Hin.
Qed.

(** With a base user prompt that is a string, the text of the user
    message is the base prompt, a newline and the assembled content. *)
Lemma prepare_prefixed (w : world) (a : Claude3Cli.args)
    (system_prompt : pyval) (base content : string) :
  Claude3Cli.input_assembly w a = Ok content ->
  resolve_prompts w a = Ok (system_prompt, VStr base) ->
  prepare w a = Ok (system_prompt, base ++ newline ++ content).
Proof.
  intros Hin Hres. unfold Claude3Cli.prepare. rewrite Hin. cbn.
  rewrite Hres. cbn. now rewrite append_assoc.
Qed.

Lemma sent_text_user_messages (budget : Z) (system_prompt : pyval) (user_prompt : string) :
  sent_text (make_body budget system_prompt (user_messages user_prompt)) =
  Some (VStr user_prompt).
Proof. reflexivity. Qed.

(** Once the prompts are prepared and the client exists, the run is the
    one call of [generate_message] on the single user message, followed by
    the handler. *)
Lemma main_calls_generate_message (w : world) (a : Claude3Cli.args)
    (system_prompt : pyval) (user_prompt : string) (runtime : bedrock_runtime) :
  prepare w a = Ok (system_prompt, user_prompt) ->
  Claude3Cli.connect w a = Ok runtime ->
  main w a =
  handle repr
    match generate_message runtime (Claude3Cli.model a) system_prompt
            (user_messages user_prompt) (Claude3Cli.token_budget a) with
    | Raise e => ([], VNone, Raise e)
    | Ok (response_messages, status) => ([response_messages], status, Ok tt)
    end.
Proof.
  intros Hprep Hconn. unfold Claude3Cli.main, Claude3Cli.try_block.
  now rewrite Hprep, Hconn.
Qed.

(** C6 fails in the default case: without [--promptfile] the argument of
    [read_prompt_json] is [None], [os.path.isfile(None)] raises
    [TypeError], and the run ends there, before anything is printed. *)
Theorem read_prompt_json_default_raises (w : world) (a : Claude3Cli.args) :
  Claude3Cli.promptfile a = None ->
  read_prompt_json (fs w) (Claude3Cli.promptfile a) = Raise TypeError /\
  (is_ok (Claude3Cli.input_assembly w a) = true -> main w a = crashed TypeError).
Proof.
  intros H. split.
  - now rewrite H.
  - intros Hin. unfold Claude3Cli.main, Claude3Cli.prepare, Claude3Cli.resolve_prompts.
    destruct (Claude3Cli.input_assembly w a); [|discriminate].
    rewrite H. reflexivity.
Qed.

(** C5 fails without a base user prompt: when neither [--prompt] nor the
    prompt file gives one, [user_prompt] is [None], [None + "\n"] raises
    [TypeError], and nothing is sent. *)
Theorem no_base_prompt_raises (w : world) (a : Claude3Cli.args) (system_prompt : pyval) :
  is_ok (Claude3Cli.input_assembly w a) = true ->
  resolve_prompts w a = Ok (system_prompt, VNone) ->
  prepare w a = Raise TypeError /\ main w a = crashed TypeError.
Proof.
  intros Hin Hres. unfold Claude3Cli.main, Claude3Cli.prepare.
  destruct (Claude3Cli.input_assembly w a); [|discriminate].
  cbn. rewrite Hres. split; reflexivity.
Qed.

(** C7: when the prompt file has been read, a flag that is given is the
    resolved prompt, whatever the file says for that key, and a flag that
    is not given leaves the file's value. *)
Theorem flags_override_prompt_file (w : world) (a : Claude3Cli.args)
    (file_system_prompt file_user_prompt : pyval) :
  read_prompt_json (fs w) (Claude3Cli.promptfile a) =
    Ok (file_system_prompt, file_user_prompt) ->
  exists system_prompt user_prompt,
    resolve_prompts w a = Ok (system_prompt, user_prompt) /\
    (forall s, Claude3Cli.systemprompt a = Some s -> system_prompt = VStr s) /\
    (forall u, Claude3Cli.prompt a = Some u -> user_prompt = VStr u) /\
    (Claude3Cli.systemprompt a = None -> system_prompt = file_system_prompt) /\
    (Claude3Cli.prompt a = None -> user_prompt = file_user_prompt).
Proof.
  intros H. unfold Claude3Cli.resolve_prompts. rewrite H. cbn.
  do 2 eexists. split; [reflexivity|].
  repeat split; intros; 
    repeat match goal with
           | E : _ = Some _ |- _ => rewrite E
           | E : _ = None |- _ => rewrite E
           end; reflexivity.
Qed.

End Prompts.

(** ** The error path of the two drivers *)

Lemma generate_message_raises runtime model_id system_prompt messages_ max_tokens_ e :
  invoke_model_with_response_stream runtime
    (make_body max_tokens_ system_prompt messages_) model_id = Raise e ->
  generate_message runtime model_id system_prompt messages_ max_tokens_ = Raise e.
Proof.
  intros H. unfold generate_message. cbn zeta. now rewrite H.
Qed.

(** C4: when the streaming call raises a client error whose message is
    [M], either driver catches it, prints the line
    "A client error occured: M", then prints [str(status)], which is "None"
    as [status] has not been assigned, and ends normally, with exit
    status 0. *)
Theorem client_error_is_reported
    (repr : pyval -> string) (w : world) (runtime : bedrock_runtime)
    (response : pyval) (M : string) :
  (e <- getitem response "Error" ;; getitem e "Message") = Ok (VStr M) ->
  (forall json_loads a system_prompt user_prompt,
      Claude3Cli.prepare json_loads w a = Ok (system_prompt, user_prompt) ->
      Claude3Cli.connect w a = Ok runtime ->
      invoke_model_with_response_stream runtime
        (make_body (Claude3Cli.token_budget a) system_prompt (user_messages user_prompt))
        (Claude3Cli.model a) = Raise (ClientError response) ->
      Claude3Cli.main json_loads repr w a = reported M /\
      exit_code (Claude3Cli.main json_loads repr w a) = 0) /\
  (forall a codes,
      LlmReview.input_assembly w a = Ok codes ->
      LlmReview.connect w a = Ok runtime ->
      invoke_model_with_response_stream runtime
        (make_body 50000 (VStr LlmReview.system_prompt)
           (user_messages (LlmReview.review_request ++ codes)))
        (LlmReview.model a) = Raise (ClientError response) ->
      LlmReview.main repr w a = reported M /\
      exit_code (LlmReview.main repr w a) = 0).
Proof.
  intros Hmsg.
  assert (Hexcept : except_client_error repr [] VNone response = reported M).
  { unfold except_client_error. now rewrite Hmsg. }
  split.
  - intros json_loads a system_prompt user_prompt Hprep Hconn Hcall.
    assert (Hmain : Claude3Cli.main json_loads repr w a = reported M).
    { unfold Claude3Cli.main, Claude3Cli.try_block. rewrite Hprep, Hconn.
      rewrite (generate_message_raises _ _ _ _ _ _ Hcall). exact Hexcept. }
    now rewrite Hmain.
  - intros a codes Hin Hconn Hcall.
    assert (Hmain : LlmReview.main repr w a = reported M).
    { unfold LlmReview.main, LlmReview.try_block. rewrite Hin, Hconn.
      rewrite (generate_message_raises _ _ _ _ _ _ Hcall). exact Hexcept. }
    now rewrite Hmain.
Qed.

(** ** The theorems at concrete inputs *)

Lemma generate_message_text_witness :
  invoke_model_with_response_stream (scripted hello_stream)
    (make_body 50000 VNone (user_messages "hi")) sonnet = Ok hello_stream /\
  generate_message (scripted hello_stream) sonnet VNone (user_messages "hi") 50000 =
  Ok ("Hello, world!", end_turn_status).
Proof.
  split; [reflexivity|].
  exact (proj2 (proj2 (generate_message_text (scripted hello_stream) sonnet VNone
                         (user_messages "hi") 50000 hello_stream eq_refl)) eq_refl).
Defined.

Lemma generate_message_status_witness :
  invoke_model_with_response_stream (scripted status_only_stream)
    (make_body 50000 VNone (user_messages "hi")) sonnet = Ok status_only_stream /\
  final_status status_only_stream = Some end_turn_status /\
  status_of (message_delta_chunk (VStr "end_turn") VNone 5) = Some end_turn_status.
Proof.
  split; [reflexivity|].
  pose proof (proj2 (generate_message_status (scripted status_only_stream) sonnet VNone
                       (user_messages "hi") 50000 status_only_stream eq_refl)
                "" end_turn_status eq_refl) as (Hfinal & Hlast & _).
  split; [exact Hfinal|].
  exact (Hlast [message_delta_chunk (VStr "max_tokens") VNone 7]
               (message_delta_chunk (VStr "end_turn") VNone 5) []
               eq_refl eq_refl eq_refl).
Defined.

Lemma generate_message_ignores_other_chunks_witness :
  hello_stream = filter (fun c => negb (ignorable c)) noisy_stream /\
  generate_message (scripted hello_stream) sonnet VNone (user_messages "hi") 50000 =
  generate_message (scripted noisy_stream) sonnet VNone (user_messages "hi") 50000.
Proof.
  split; [reflexivity|].
  exact (proj1 (proj2 (generate_message_ignores_other_chunks
                         (scripted noisy_stream) sonnet VNone (user_messages "hi") 50000
                         noisy_stream eq_refl (scripted hello_stream) hello_stream eq_refl))
               eq_refl).
Defined.

Lemma client_error_is_reported_witness :
  Claude3Cli.main example_json_loads example_repr denied_world
    (cli_args ["notes.txt"] None (Some "Explain:") (Some "prompt.json")) =
    reported "Access denied" /\
  LlmReview.main example_repr denied_world (review_args ["main.py"]) =
    reported "Access denied".
Proof.
  destruct (client_error_is_reported example_repr denied_world
              (failing (ClientError access_denied)) access_denied "Access denied"
              eq_refl) as [Hcli Hreview].
  split.
  - exact (proj1 (Hcli example_json_loads
                    (cli_args ["notes.txt"] None (Some "Explain:") (Some "prompt.json"))
                    (VStr "Be brief.") ("Explain:" ++ newline ++ "hello ")
                    eq_refl eq_refl eq_refl)).
  - exact (proj1 (Hreview (review_args ["main.py"]) "print(1)" eq_refl eq_refl eq_refl)).
Defined.

Lemma no_base_prompt_raises_witness :
  Claude3Cli.resolve_prompts example_json_loads echo_world
    (cli_args ["notes.txt"] None None (Some "missing.json")) = Ok (VNone, VNone) /\
  Claude3Cli.main example_json_loads example_repr echo_world
    (cli_args ["notes.txt"] None None (Some "missing.json")) = crashed TypeError.
Proof.
  split; [reflexivity|].
  exact (proj2 (no_base_prompt_raises example_json_loads example_repr echo_world
                  (cli_args ["notes.txt"] None None (Some "missing.json")) VNone
                  eq_refl eq_refl)).
Defined.

Lemma read_prompt_json_default_raises_witness :
  Claude3Cli.promptfile (cli_args ["notes.txt"] None (Some "Explain:") None) = None /\
  Claude3Cli.main example_json_loads example_repr echo_world
    (cli_args ["notes.txt"] None (Some "Explain:") None) = crashed TypeError.
Proof.
  split; [reflexivity|].
  exact (proj2 (read_prompt_json_default_raises example_json_loads example_repr echo_world
                  (cli_args ["notes.txt"] None (Some "Explain:") None) eq_refl)
               eq_refl).
Defined.

Lemma flags_override_prompt_file_witness :
  Claude3Cli.read_prompt_json example_json_loads example_fs (Some "prompt.json") =
    Ok (VStr "Be brief.", VStr "Summarize:") /\
  Claude3Cli.resolve_prompts example_json_loads echo_world
    (cli_args ["notes.txt"] (Some "Be formal.") (Some "Translate:") (Some "prompt.json")) =
    Ok (VStr "Be formal.", VStr "Translate:").
Proof.
  split; [reflexivity|].
  destruct (flags_override_prompt_file example_json_loads echo_world
              (cli_args ["notes.txt"] (Some "Be formal.") (Some "Translate:")
                 (Some "prompt.json"))
              (VStr "Be brief.") (VStr "Summarize:") eq_refl)
    as (system_prompt & user_prompt & Hres & Hsys & Huser & _).
  rewrite Hres, (Hsys _ eq_refl), (Huser _ eq_refl). reflexivity.
Defined.

(** The normal path: the prompt file gives the base prompt, the files the
    content, and the answer of the echoing SDK is printed. *)
Example main_prints_answer :
  Claude3Cli.main example_json_loads example_repr echo_world
    (cli_args ["notes.txt"; "missing.txt"; "main.py"] None None (Some "user.json")) =
  {| stdout := ["Summarize:" ++ newline ++ "hello print(1)"];
     logged := [];
     exit := Finished |}.
Proof. reflexivity. Qed.

Example main_empty_prompt_file :
  Claude3Cli.main example_json_loads example_repr echo_world
    (cli_args [] None None (Some "empty.json")) = crashed TypeError.
Proof. reflexivity. Qed.

Example review_main_on_directory :
  LlmReview.main example_repr echo_world (review_args ["src"]) =
  crashed IsADirectoryError.
Proof. reflexivity. Qed.

Example review_main_prints_answer :
  LlmReview.main example_repr echo_world (review_args []) =
  {| stdout := [LlmReview.review_request ++ "from stdin"]; logged := []; exit := Finished |}.
Proof. reflexivity. Qed.

(** * Further properties of the code *)

(** ** The two [files_reader] *)

Lemma bind_ok_r {A : Type} (c : result A) : (x <- c ;; Ok x) = c.
Proof. destruct c; reflexivity. Qed.





(** X1: on the review client, when every path either does not exist or
    names a readable file with UTF-8 text, the code to review is the
    concatenation, in argument order, of the text of the existing files, and
    the standard input is not used; with no path at all it is the whole
    standard input. *)
Theorem review_input_assembly_concatenates (w : world) (a : LlmReview.args) :
  forallb (passes_review (fs w)) (LlmReview.args_ a) = true ->
  LlmReview.input_assembly w a =
  Ok (match LlmReview.args_ a with
      | [] => stdin w
      | _ => texts (fs w) (LlmReview.args_ a)
      end).
Proof.
  intros H. unfold LlmReview.input_assembly.
  destruct (LlmReview.args_ a) as [|p files] eqn:E; [reflexivity|].
  cbn [length Nat.ltb Nat.leb]. unfold LlmReview.files_reader.
  now rewrite (review_read_files_passes _ _ "" H).
Qed.

Lemma review_input_assembly_concatenates_witness :
  forallb (passes_review (fs echo_world)) ["notes.txt"; "missing.txt"; "main.py"] = true /\
  LlmReview.input_assembly echo_world (review_args ["notes.txt"; "missing.txt"; "main.py"]) =
  Ok "hello print(1)".
Proof.
  split; [reflexivity|].
  exact (review_input_assembly_concatenates echo_world
           (review_args ["notes.txt"; "missing.txt"; "main.py"]) eq_refl).
Defined.

Lemma isfile_exists (fs : filesystem) (path : string) :
  isfile fs path = true -> exists_ fs path = true.
Proof.
  unfold isfile, exists_. destruct (fs path); [reflexivity | discriminate].
Qed.

(** X2: the [files_reader] of the two scripts return the same result, text
    or exception, on every list of paths in which each path that exists
    names a regular file, that is on which [os.path.exists] and
    [os.path.isfile] give the same answer. *)
Theorem files_reader_same_on_regular_files (fs : filesystem) (files : list string) :
  (forall path, In path files -> exists_ fs path = true -> isfile fs path = true) ->
  Claude3Cli.files_reader fs files = LlmReview.files_reader fs files.
Proof.
  intros H. apply files_reader_agree. apply forallb_forall. intros path Hin.
  specialize (H path Hin).
  destruct (exists_ fs path) eqn:He.
  - now rewrite (H eq_refl).
  - destruct (isfile fs path) eqn:Hf; [|reflexivity].
    apply isfile_exists in Hf. congruence.
Qed.

Lemma files_reader_same_on_regular_files_witness :
  Claude3Cli.files_reader example_fs ["notes.txt"; "secret.txt"; "nowhere"] =
  LlmReview.files_reader example_fs ["notes.txt"; "secret.txt"; "nowhere"].
Proof.
  apply files_reader_same_on_regular_files.
  intros path [<-|[<-|[<-|[]]]] H; try reflexivity; discriminate H.
Defined.

(** On a path that exists without being a regular file or a directory the
    two differ: the generic reader skips the pipe, the review reader reads
    it. *)
Example files_reader_differ_on_pipe :
  Claude3Cli.files_reader pipe_fs ["/dev/stdin"; "notes.txt"] = Ok "hello " /\
  LlmReview.files_reader pipe_fs ["/dev/stdin"; "notes.txt"] = Ok "piped hello ".
Proof. split; reflexivity. Qed.




Lemma cli_read_files_raise (fs : filesystem) (files : list string) (e : exn) :
  forall r,
    Claude3Cli.read_files fs r files = Raise e ->
    exists pre path post,
      files = (pre ++ path :: post)%list /\
      isfile fs path = true /\ open_read fs path = Raise e /\
      forall r0, is_ok (Claude3Cli.read_files fs r0 pre) = true.
Proof.
  induction files as [|p files IH]; intros r H; cbn in H; [discriminate|].
  destruct (isfile fs p) eqn:Hf.
  - destruct (open_read fs p) as [text|e'] eqn:Hopen; cbn in H.
    + destruct (IH _ H) as (pre & path & post & -> & Hp & He & Hpre).
      exists (p :: pre), path, post. repeat split; try assumption.
      intros r0. cbn. rewrite Hf, Hopen. cbn. apply Hpre.
    + injection H as ->. exists [], p, files. repeat split; assumption.
  - destruct (IH _ H) as (pre & path & post & -> & Hp & He & Hpre).
    exists (p :: pre), path, post. repeat split; try assumption.
    intros r0. cbn. rewrite Hf. apply Hpre.
Qed.

Lemma review_read_files_raise (fs : filesystem) (files : list string) (e : exn) :
  forall r,
    LlmReview.read_files fs r files = Raise e ->
    exists pre path post,
      files = (pre ++ path :: post)%list /\
      exists_ fs path = true /\ open_read fs path = Raise e /\
      forall r0, is_ok (LlmReview.read_files fs r0 pre) = true.
Proof.
  induction files as [|p files IH]; intros r H; cbn in H; [discriminate|].
  destruct (exists_ fs p) eqn:Hf.
  - destruct (open_read fs p) as [text|e'] eqn:Hopen; cbn in H.
    + destruct (IH _ H) as (pre & path & post & -> & Hp & He & Hpre).
      exists (p :: pre), path, post. repeat split; try assumption.
      intros r0. cbn. rewrite Hf, Hopen. cbn. apply Hpre.
    + injection H as ->. exists [], p, files. repeat split; assumption.
  - destruct (IH _ H) as (pre & path & post & -> & Hp & He & Hpre).
    exists (p :: pre), path, post. repeat split; try assumption.
    intros r0. cbn. rewrite Hf. apply Hpre.
Qed.

(** X5: a path that fails the script's test never makes [files_reader]
    raise.  When [files_reader] raises, the list splits at a path that passed
    the test ([isfile] in the generic script, [exists] in the review script)
    and on which opening and reading raised that very exception, and the
    paths before it are read without error. *)
Theorem files_reader_raises_from_tested_path
    (fs : filesystem) (files : list string) (e : exn) :
  (Claude3Cli.files_reader fs files = Raise e ->
   exists pre path post,
     files = (pre ++ path :: post)%list /\
     isfile fs path = true /\ open_read fs path = Raise e /\
     is_ok (Claude3Cli.files_reader fs pre) = true) /\
  (LlmReview.files_reader fs files = Raise e ->
   exists pre path post,
     files = (pre ++ path :: post)%list /\
     exists_ fs path = true /\ open_read fs path = Raise e /\
     is_ok (LlmReview.files_reader fs pre) = true).
Proof.
  unfold Claude3Cli.files_reader, LlmReview.files_reader. split; intros H.
  - destruct (cli_read_files_raise _ _ _ _ H) as (pre & path & post & Hs & Hp & He & Hpre).
    exists pre, path, post. auto.
  - destruct (review_read_files_raise _ _ _ _ H) as (pre & path & post & Hs & Hp & He & Hpre).
    exists pre, path, post. auto.
Qed.

Lemma files_reader_raises_from_tested_path_witness :
  exists pre path post,
    ["nowhere"; "notes.txt"; "/proc/self/mem"; "main.py"] = (pre ++ path :: post)%list /\
    isfile faulty_fs path = true /\ open_read faulty_fs path = Raise (OSError "EIO") /\
    is_ok (Claude3Cli.files_reader faulty_fs pre) = true.
Proof.
  exact (proj1 (files_reader_raises_from_tested_path faulty_fs
                  ["nowhere"; "notes.txt"; "/proc/self/mem"; "main.py"] (OSError "EIO"))
               eq_refl).
Defined.

(** ** Prompt loading and the user message (generic client) *)

Section PromptFile.

Variable json_loads : string -> result pyval.

Local Abbreviation read_prompt_json := (Claude3Cli.read_prompt_json json_loads).

Lemma contains_error (key : string) (v : pyval) (e : exn) :
  contains key v = Raise e -> e = TypeError.
Proof.
  destruct v; cbn; intros H; try discriminate; now injection H as <-.
Qed.

(** X6: for a path given as a string, [read_prompt_json] returns two
    absent prompts when the path is not a regular file, without reading or
    parsing anything; for a readable file it raises what [json.loads] raises
    on the text, and when the text is a JSON object it returns the values of
    ["system_prompt"] and ["user_prompt"], each absent when the object has no
    such key; an unreadable file raises [PermissionError]. *)
Theorem read_prompt_json_string_path (fs : filesystem) (path : string) :
  (isfile fs path = false -> read_prompt_json fs (Some path) = Ok (VNone, VNone)) /\
  (unreadable_file fs path = true ->
   read_prompt_json fs (Some path) = Raise PermissionError) /\
  (forall text,
      fs path = Some (RegularFile true (Some text)) ->
      (forall e, json_loads text = Raise e -> read_prompt_json fs (Some path) = Raise e) /\
      (forall items,
          json_loads text = Ok (VDict items) ->
          read_prompt_json fs (Some path) =
          Ok (match dict_get "system_prompt" items with Some v => v | None => VNone end,
              match dict_get "user_prompt" items with Some v => v | None => VNone end))).
Proof.
  split; [|split].
  - apply read_prompt_json_missing.
  - intros Hu. destruct (unreadable_not_passes fs path Hu) as (_ & _ & Hf & _ & Hopen).
    unfold Claude3Cli.read_prompt_json. cbn. now rewrite Hf, Hopen.
  - intros text Hfs. split.
    + intros e He.
      assert (Hfile : isfile fs path = true) by (unfold isfile; now rewrite Hfs).
      assert (Hread : open_read fs path = Ok text) by (unfold open_read; now rewrite Hfs).
      unfold Claude3Cli.read_prompt_json. cbn. rewrite Hfile, Hread. cbn. now rewrite He.
    + intros items Hjson. now apply read_prompt_json_object with (text := text).
Qed.

(** X7: when the text of the prompt file is valid JSON but not an object,
    [read_prompt_json] returns two absent prompts only if the value is a
    list or a string in which [in] finds neither key; in every other case
    (a number, a boolean, [null], a list holding the key, a string
    containing it) it raises [TypeError]. *)
Theorem read_prompt_json_not_object (fs : filesystem) (path text : string) (v : pyval) :
  fs path = Some (RegularFile true (Some text)) ->
  json_loads text = Ok v ->
  (forall items, v <> VDict items) ->
  read_prompt_json fs (Some path) =
  match contains "system_prompt" v, contains "user_prompt" v with
  | Ok false, Ok false => Ok (VNone, VNone)
  | _, _ => Raise TypeError
  end.
Proof.
  intros Hfs Hjson Hv.
  assert (Hfile : isfile fs path = true) by (unfold isfile; now rewrite Hfs).
  assert (Hread : open_read fs path = Ok text) by (unfold open_read; now rewrite Hfs).
  assert (Hget : forall key, getitem v key = Raise TypeError).
  { intros key. destruct v; try reflexivity. now destruct (Hv items). }
  unfold Claude3Cli.read_prompt_json. cbn. rewrite Hfile, Hread. cbn.
  rewrite Hjson. cbn.
  destruct (contains "system_prompt" v) as [[]|e1] eqn:E1; cbn.
  - now rewrite Hget.
  - destruct (contains "user_prompt" v) as [[]|e2] eqn:E2; cbn.
    + now rewrite Hget.
    + reflexivity.
    + now rewrite (contains_error _ _ _ E2).
  - now rewrite (contains_error _ _ _ E1).
Qed.

(** X8: the text of the user message is the resolved user prompt, a newline
    and the assembled content exactly when the resolved user prompt is a
    string; the system prompt is passed on as resolved, absent or not.  For
    any other resolved user prompt ([None], a number, a list, an object)
    line 126 raises [TypeError]. *)
Theorem prepare_user_message (w : world) (a : Claude3Cli.args)
    (file_system_prompt file_user_prompt : pyval) (content : string) :
  Claude3Cli.input_assembly w a = Ok content ->
  read_prompt_json (fs w) (Claude3Cli.promptfile a) =
    Ok (file_system_prompt, file_user_prompt) ->
  Claude3Cli.prepare json_loads w a =
  match flag_or (Claude3Cli.prompt a) file_user_prompt with
  | VStr base =>
      Ok (flag_or (Claude3Cli.systemprompt a) file_system_prompt,
          base ++ newline ++ content)
  | _ => Raise TypeError
  end.
Proof.
  intros Hin Hread.
  unfold Claude3Cli.prepare, Claude3Cli.resolve_prompts. rewrite Hin. cbn.
  rewrite Hread. cbn. unfold flag_or.
  destruct (Claude3Cli.prompt a) as [u|]; cbn.
  - now rewrite append_assoc.
  - destruct file_user_prompt; cbn; try reflexivity. now rewrite append_assoc.
Qed.

End PromptFile.

Lemma read_prompt_json_string_path_witness :
  Claude3Cli.read_prompt_json example_json_loads example_fs (Some "missing.json") =
    Ok (VNone, VNone) /\
  Claude3Cli.read_prompt_json example_json_loads example_fs (Some "secret.txt") =
    Raise PermissionError /\
  Claude3Cli.read_prompt_json example_json_loads example_fs (Some "notes.txt") =
    Raise JSONDecodeError /\
  Claude3Cli.read_prompt_json example_json_loads example_fs (Some "user.json") =
    Ok (VNone, VStr "Summarize:").
Proof.
  split; [|split; [|split]].
  - exact (proj1 (read_prompt_json_string_path example_json_loads example_fs
                    "missing.json") eq_refl).
  - exact (proj1 (proj2 (read_prompt_json_string_path example_json_loads example_fs
                           "secret.txt")) eq_refl).
  - exact (proj1 (proj2 (proj2 (read_prompt_json_string_path example_json_loads
                                  example_fs "notes.txt")) "hello " eq_refl)
                 JSONDecodeError eq_refl).
  - exact (proj2 (proj2 (proj2 (read_prompt_json_string_path example_json_loads
                                  example_fs "user.json")) user_prompt_only_text eq_refl)
                 [("user_prompt", VStr "Summarize:")] eq_refl).
Defined.

Lemma read_prompt_json_not_object_witness :
  Claude3Cli.read_prompt_json (fun _ => Ok (VList [VStr "user_prompt"])) example_fs
    (Some "notes.txt") = Raise TypeError /\
  Claude3Cli.read_prompt_json (fun _ => Ok (VStr "no prompts here")) example_fs
    (Some "notes.txt") = Ok (VNone, VNone).
Proof.
  split.
  - refine (read_prompt_json_not_object (fun _ => Ok (VList [VStr "user_prompt"]))
              example_fs "notes.txt" "hello " (VList [VStr "user_prompt"])
              eq_refl eq_refl _).
    intros items H. discriminate H.
  - refine (read_prompt_json_not_object (fun _ => Ok (VStr "no prompts here"))
              example_fs "notes.txt" "hello " (VStr "no prompts here")
              eq_refl eq_refl _).
    intros items H. discriminate H.
Defined.

Lemma prepare_user_message_witness :
  Claude3Cli.prepare example_json_loads echo_world
    (cli_args ["notes.txt"; "main.py"] None None (Some "prompt.json")) =
    Ok (VStr "Be brief.", "Summarize:" ++ newline ++ "hello print(1)") /\
  Claude3Cli.prepare example_json_loads echo_world
    (cli_args [] None (Some "") (Some "missing.json")) =
    Ok (VNone, newline ++ "from stdin").
Proof.
  split.
  - exact (prepare_user_message example_json_loads echo_world
             (cli_args ["notes.txt"; "main.py"] None None (Some "prompt.json"))
             (VStr "Be brief.") (VStr "Summarize:") "hello print(1)" eq_refl eq_refl).
  - exact (prepare_user_message example_json_loads echo_world
             (cli_args [] None (Some "") (Some "missing.json"))
             VNone VNone "from stdin" eq_refl eq_refl).
Defined.

(** ** More on the streaming loop *)

Lemma accumulated_text_app (xs ys : list pyval) :
  accumulated_text (xs ++ ys)%list = accumulated_text xs ++ accumulated_text ys.
Proof.
  induction xs as [|c xs IH]; [reflexivity|].
  cbn [app]. rewrite !accumulated_text_cons, IH. now rewrite append_assoc.
Qed.

Lemma last_message_delta_some (events : list pyval) :
  existsb is_message_delta events = true ->
  exists chunk, last_message_delta events = Some chunk.
Proof.
  induction events as [|x events IH] using rev_ind; intros H; [discriminate|].
  rewrite last_message_delta_snoc.
  destruct (is_message_delta x) eqn:Hx; [eauto|].
  rewrite existsb_app in H. cbn in H. rewrite Hx in H. cbn in H.
  rewrite orb_false_r in H. now apply IH.
Qed.

(** On a well-formed stream the final status does not depend on the
    initial one as soon as the stream has a [message_delta] chunk, and is the
    initial one otherwise. *)
Lemma fold_next_status_initial (events : list pyval) (st : pyval) :
  forallb well_formed events = true ->
  fold_left next_status events st =
  if existsb is_message_delta events
  then fold_left next_status events (VDict [])
  else st.
Proof.
  intros Hwf.
  pose proof (fold_next_status events st Hwf) as H1.
  pose proof (fold_next_status events (VDict []) Hwf) as H2.
  destruct (existsb is_message_delta events) eqn:E.
  - destruct (last_message_delta_some _ E) as [chunk Hc].
    rewrite Hc in H1, H2. congruence.
  - rewrite (last_message_delta_none _ E) in H1. congruence.
Qed.

Lemma on_chunk_error (acc : string * pyval) (chunk : pyval) (e : exn) :
  on_chunk acc chunk = Raise e -> lookup_error e = true.
Proof.
  destruct acc as [r st].
  unfold on_chunk, iadd_str.
  chunk_cases.
  all: try discriminate.
  all: intros H; injection H as <-; try reflexivity.
  all: repeat match goal with
              | |- context [match ?v with VNone => _ | _ => _ end] => destruct v
              end; reflexivity.
Qed.

Lemma consume_error (events : list pyval) (e : exn) :
  forall acc, consume acc events = Raise e -> lookup_error e = true.
Proof.
  induction events as [|chunk events IH]; intros acc H; cbn in H; [discriminate|].
  destruct (on_chunk acc chunk) as [acc'|e'] eqn:Hc; cbn in H.
  - eauto.
  - injection H as <-. eapply on_chunk_error; eauto.
Qed.

Lemma consume_app (xs ys : list pyval) :
  forall acc, consume acc (xs ++ ys)%list = (acc' <- consume acc xs ;; consume acc' ys).
Proof.
  induction xs as [|c xs IH]; intros acc; cbn; [reflexivity|].
  destruct (on_chunk acc c); cbn; [apply IH | reflexivity].
Qed.

Section StreamParts.

Variables (model_id : string) (system_prompt messages_ : pyval) (max_tokens_ : Z).

Local Abbreviation run_on events :=
  (generate_message (scripted events) model_id system_prompt messages_ max_tokens_).

Lemma generate_message_scripted (events : list pyval) :
  run_on events = consume ("", VDict []) events.
Proof. reflexivity. Qed.

(** X9: the result on a stream made of two parts is built from the results
    on the parts: the text is the text of the first part followed by the
    text of the second, and the status is the status of the second part when
    that part has a [message_delta] chunk and the status of the first part
    otherwise.  When the first part raises, the whole stream raises the same
    exception. *)
Theorem generate_message_app (xs ys : list pyval) :
  (forall r1 st1 r2 st2,
      run_on xs = Ok (r1, st1) -> run_on ys = Ok (r2, st2) ->
      run_on (xs ++ ys)%list =
      Ok (r1 ++ r2, if existsb is_message_delta ys then st2 else st1)) /\
  (forall e, run_on xs = Raise e -> run_on (xs ++ ys)%list = Raise e).
Proof.
  rewrite !generate_message_scripted. split.
  - intros r1 st1 r2 st2 H1 H2.
    pose proof (consume_ok_well_formed _ _ _ H1) as Hx.
    pose proof (consume_ok_well_formed _ _ _ H2) as Hy.
    rewrite consume_app, H1. cbn [bind].
    rewrite (consume_well_formed _ _ _ Hy).
    rewrite (consume_well_formed _ _ _ Hy) in H2. injection H2 as <- <-.
    now rewrite (fold_next_status_initial ys st1 Hy).
  - intros e H. now rewrite consume_app, H.
Qed.

(** X10: the first ill-formed chunk of a stream decides the result.  An
    ill-formed chunk has one exception, a [KeyError] or a [TypeError], which
    the call raises whatever well-formed chunks come before that chunk and
    whatever chunks come after it: the later chunks are not looked at and the
    text accumulated before it is not returned.  For a chunk that is an
    object without a ["type"] key the exception is [KeyError] on ["type"]. *)
Theorem generate_message_ill_formed (chunk : pyval) :
  well_formed chunk = false ->
  exists e,
    lookup_error e = true /\
    (forall pre post,
        forallb well_formed pre = true ->
        run_on (pre ++ chunk :: post)%list = Raise e) /\
    (forall items, chunk = VDict items -> dict_get "type" items = None ->
                   e = KeyError "type").
Proof.
  intros Hbad. destruct (on_chunk_ill_formed chunk Hbad) as [e He].
  exists e. split; [|split].
  - eapply on_chunk_error. apply (He ("", VNone)).
  - intros pre post Hpre. rewrite generate_message_scripted.
    rewrite consume_app, (consume_well_formed _ _ _ Hpre). cbn [bind consume].
    now rewrite He.
  - intros items -> Hty. specialize (He ("", VNone)).
    unfold on_chunk in He. cbn in He. rewrite Hty in He. cbn in He. congruence.
Qed.

(** X11: the status [generate_message] returns has one of two shapes: the
    empty record, exactly when the stream has no [message_delta] chunk, or
    a record of exactly the three keys [stop_reason], [stop_sequence] and
    [output_tokens], in this order. *)
Theorem generate_message_status_shape (events : list pyval) (r : string) (st : pyval) :
  run_on events = Ok (r, st) ->
  (existsb is_message_delta events = false /\ st = VDict []) \/
  (existsb is_message_delta events = true /\
   exists sr ss ot,
     st = VDict [("stop_reason", sr); ("stop_sequence", ss); ("output_tokens", ot)]).
Proof.
  rewrite generate_message_scripted. intros H.
  apply consume_spec in H as [_ Hst]. unfold final_status in Hst.
  destruct (existsb is_message_delta events) eqn:E.
  - right. split; [reflexivity|].
    destruct (last_message_delta_some _ E) as [chunk Hc]. rewrite Hc in Hst.
    now apply status_of_populated in Hst.
  - left. split; [reflexivity|].
    rewrite (last_message_delta_none _ E) in Hst. congruence.
Qed.

End StreamParts.

Lemma generate_message_app_witness :
  generate_message (scripted ([text_delta_chunk "Hello, "] ++ tl hello_stream))
    sonnet VNone (user_messages "hi") 50000 =
  Ok ("Hello, " ++ "world!", end_turn_status).
Proof.
  exact (proj1 (generate_message_app sonnet VNone (user_messages "hi") 50000
                  [text_delta_chunk "Hello, "] (tl hello_stream))
               "Hello, " (VDict []) "world!" end_turn_status eq_refl eq_refl).
Defined.

Lemma generate_message_ill_formed_witness :
  exists e,
    e = KeyError "type" /\
    generate_message (scripted broken_stream) sonnet VNone (user_messages "hi") 50000 =
    Raise e.
Proof.
  destruct (generate_message_ill_formed sonnet VNone (user_messages "hi") 50000
              (VDict [("delta", VDict [("text", VStr "lost")])]) eq_refl)
    as (e & _ & Hrun & Hkey).
  exists e. split.
  - exact (Hkey _ eq_refl eq_refl).
  - exact (Hrun [text_delta_chunk "Hello, "] [text_delta_chunk "world!"] eq_refl).
Defined.

Lemma generate_message_status_shape_witness :
  (existsb is_message_delta hello_stream = false /\ end_turn_status = VDict []) \/
  (existsb is_message_delta hello_stream = true /\
   exists sr ss ot,
     end_turn_status =
     VDict [("stop_reason", sr); ("stop_sequence", ss); ("output_tokens", ot)]).
Proof.
  exact (generate_message_status_shape sonnet VNone (user_messages "hi") 50000
           hello_stream "Hello, world!" end_turn_status eq_refl).
Defined.

(** ** More on the two drivers *)

Lemma review_main_calls_generate_message (repr : pyval -> string) (w : world)
    (a : LlmReview.args) (codes : string) (runtime : bedrock_runtime) :
  LlmReview.input_assembly w a = Ok codes ->
  LlmReview.connect w a = Ok runtime ->
  LlmReview.main repr w a =
  handle repr
    match generate_message runtime (LlmReview.model a) (VStr LlmReview.system_prompt)
            (user_messages (LlmReview.review_request ++ codes)) 50000 with
    | Raise e => ([], VNone, Raise e)
    | Ok (response_messages, status) => ([response_messages], status, Ok tt)
    end.
Proof.
  intros Hin Hconn. unfold LlmReview.main, LlmReview.try_block.
  now rewrite Hin, Hconn.
Qed.

Lemma handle_lookup_error (repr : pyval -> string) (status : pyval) (e : exn) :
  lookup_error e = true -> handle repr ([], status, Raise e) = crashed e.
Proof.
  destruct e; try discriminate; reflexivity.
Qed.

Lemma cli_prepare_ext (json_loads : string -> result pyval) (w w' : world)
    (a : Claude3Cli.args) :
  fs w' = fs w -> stdin w' = stdin w ->
  Claude3Cli.prepare json_loads w' a = Claude3Cli.prepare json_loads w a.
Proof.
  destruct w, w'. cbn. intros -> ->. reflexivity.
Qed.

Lemma review_input_assembly_ext (w w' : world) (a : LlmReview.args) :
  fs w' = fs w -> stdin w' = stdin w ->
  LlmReview.input_assembly w' a = LlmReview.input_assembly w a.
Proof.
  destruct w, w'. cbn. intros -> ->. reflexivity.
Qed.

Section Drivers.

Variable repr : pyval -> string.

(** X12: when the streaming call returns a stream of well-formed chunks,
    either driver prints one line, the accumulated text, and ends normally;
    the status record is not printed and nothing is logged. *)
Theorem main_prints_accumulated_text (w : world) (runtime : bedrock_runtime)
    (events : list pyval) :
  forallb well_formed events = true ->
  (forall json_loads a,
      cli_call json_loads w a runtime (Ok events) ->
      Claude3Cli.main json_loads repr w a = answered (accumulated_text events)) /\
  (forall a,
      review_call w a runtime (Ok events) ->
      LlmReview.main repr w a = answered (accumulated_text events)).
Proof.
  intros Hwf. split.
  - intros json_loads a (sp & up & Hprep & Hconn & Hcall).
    rewrite (main_calls_generate_message _ _ _ _ _ _ _ Hprep Hconn).
    rewrite (generate_message_stream _ _ _ _ _ _ Hcall).
    now rewrite (consume_well_formed _ _ _ Hwf).
  - intros a (codes & Hin & Hconn & Hcall).
    rewrite (review_main_calls_generate_message _ _ _ _ _ Hin Hconn).
    rewrite (generate_message_stream _ _ _ _ _ _ Hcall).
    now rewrite (consume_well_formed _ _ _ Hwf).
Qed.

(** X13: when the stream the call returns has an ill-formed chunk, the
    [KeyError] or [TypeError] of the loop is not caught by
    [except ClientError]: either driver ends on it with exit status 1, and
    prints nothing, not even the text received before that chunk. *)
Theorem main_ill_formed_stream (w : world) (runtime : bedrock_runtime)
    (events : list pyval) :
  forallb well_formed events = false ->
  exists e,
    lookup_error e = true /\ exit_code (crashed e) = 1 /\
    (forall json_loads a,
        cli_call json_loads w a runtime (Ok events) ->
        Claude3Cli.main json_loads repr w a = crashed e) /\
    (forall a,
        review_call w a runtime (Ok events) ->
        LlmReview.main repr w a = crashed e).
Proof.
  intros Hbad.
  destruct (consume_ill_formed events Hbad ("", VDict [])) as [e He].
  pose proof (consume_error _ _ _ He) as Hk.
  exists e. split; [assumption|]. split; [reflexivity|]. split.
  - intros json_loads a (sp & up & Hprep & Hconn & Hcall).
    rewrite (main_calls_generate_message _ _ _ _ _ _ _ Hprep Hconn).
    rewrite (generate_message_stream _ _ _ _ _ _ Hcall), He.
    now apply handle_lookup_error.
  - intros a (codes & Hin & Hconn & Hcall).
    rewrite (review_main_calls_generate_message _ _ _ _ _ Hin Hconn).
    rewrite (generate_message_stream _ _ _ _ _ _ Hcall), He.
    now apply handle_lookup_error.
Qed.

(** X14: a client error raised while the SDK client is created, before any
    request, is caught by the same handler: either driver prints
    "A client error occured: M" and "None" and ends normally. *)
Theorem client_error_at_construction (w : world) (response : pyval) (M : string) :
  (e <- getitem response "Error" ;; getitem e "Message") = Ok (VStr M) ->
  (forall json_loads a system_prompt user_prompt,
      Claude3Cli.prepare json_loads w a = Ok (system_prompt, user_prompt) ->
      Claude3Cli.connect w a = Raise (ClientError response) ->
      Claude3Cli.main json_loads repr w a = reported M) /\
  (forall a codes,
      LlmReview.input_assembly w a = Ok codes ->
      LlmReview.connect w a = Raise (ClientError response) ->
      LlmReview.main repr w a = reported M).
Proof.
  intros Hmsg.
  assert (Hexcept : except_client_error repr [] VNone response = reported M).
  { unfold except_client_error. now rewrite Hmsg. }
  split.
  - intros json_loads a sp up Hprep Hconn.
    unfold Claude3Cli.main, Claude3Cli.try_block. now rewrite Hprep, Hconn.
  - intros a codes Hin Hconn.
    unfold LlmReview.main, LlmReview.try_block. now rewrite Hin, Hconn.
Qed.

(** X15: when the response of the client error has no ["Error"] entry, or
    the entry has no ["Message"], the handler itself raises: the [KeyError]
    or [TypeError] of the lookup ends either driver with exit status 1, and
    the two lines of the handler are not printed. *)
Theorem client_error_without_message (w : world) (runtime : bedrock_runtime)
    (response : pyval) (e : exn) :
  (e0 <- getitem response "Error" ;; getitem e0 "Message") = Raise e ->
  lookup_error e = true /\
  (forall json_loads a,
      cli_call json_loads w a runtime (Raise (ClientError response)) ->
      Claude3Cli.main json_loads repr w a = crashed e) /\
  (forall a,
      review_call w a runtime (Raise (ClientError response)) ->
      LlmReview.main repr w a = crashed e).
Proof.
  intros Hmsg.
  assert (Hexcept : except_client_error repr [] VNone response = crashed e).
  { unfold except_client_error. now rewrite Hmsg. }
  split; [|split].
  - rewrite !getitem_field in Hmsg.
    destruct (field response "Error") as [e0|]; cbn in Hmsg.
    + rewrite getitem_field in Hmsg.
      destruct (field e0 "Message"); [discriminate|].
      injection Hmsg as <-. now destruct e0.
    + injection Hmsg as <-. now destruct response.
  - intros json_loads a (sp & up & Hprep & Hconn & Hcall).
    rewrite (main_calls_generate_message _ _ _ _ _ _ _ Hprep Hconn).
    now rewrite (generate_message_raises _ _ _ _ _ _ Hcall).
  - intros a (codes & Hin & Hconn & Hcall).
    rewrite (review_main_calls_generate_message _ _ _ _ _ Hin Hconn).
    now rewrite (generate_message_raises _ _ _ _ _ _ Hcall).
Qed.

(** X16: what a run prints and how it ends is decided by the answer of the
    SDK to its one request: two runs that reach the call and get the same
    answer, a stream or an exception, have the same outcome, whatever their
    files, prompts and flags, and whichever of the two scripts they run. *)
Theorem main_outcome_from_answer (answer : result (list pyval))
    (json_loads : string -> result pyval)
    (w : world) (a : Claude3Cli.args) (runtime : bedrock_runtime) :
  cli_call json_loads w a runtime answer ->
  (forall json_loads' w' a' runtime',
      cli_call json_loads' w' a' runtime' answer ->
      Claude3Cli.main json_loads' repr w' a' = Claude3Cli.main json_loads repr w a) /\
  (forall w' a' runtime',
      review_call w' a' runtime' answer ->
      LlmReview.main repr w' a' = Claude3Cli.main json_loads repr w a).
Proof.
  intros (sp & up & Hprep & Hconn & Hcall).
  rewrite (main_calls_generate_message _ _ _ _ _ _ _ Hprep Hconn).
  unfold generate_message. cbn zeta. rewrite Hcall.
  split.
  - intros json_loads' w' a' runtime' (sp' & up' & Hprep' & Hconn' & Hcall').
    rewrite (main_calls_generate_message _ _ _ _ _ _ _ Hprep' Hconn').
    unfold generate_message. cbn zeta. now rewrite Hcall'.
  - intros w' a' runtime' (codes & Hin & Hconn' & Hcall').
    rewrite (review_main_calls_generate_message _ _ _ _ _ Hin Hconn').
    unfold generate_message. cbn zeta. now rewrite Hcall'.
Qed.

(** X17: when reading the input files fails, the run ends on that exception
    with nothing printed, before the prompt file is parsed and before the SDK
    client is created: the outcome is the same for every [json.loads] and
    every SDK. *)
Theorem failed_read_ends_run (w : world) (e : exn) :
  (forall a,
      Claude3Cli.input_assembly w a = Raise e ->
      forall json_loads w',
        fs w' = fs w -> stdin w' = stdin w ->
        Claude3Cli.main json_loads repr w' a = crashed e) /\
  (forall a,
      LlmReview.input_assembly w a = Raise e ->
      forall w',
        fs w' = fs w -> stdin w' = stdin w ->
        LlmReview.main repr w' a = crashed e).
Proof.
  split; intros a Hin.
  - intros json_loads w' Hfs Hstdin.
    unfold Claude3Cli.main. rewrite (cli_prepare_ext _ _ _ _ Hfs Hstdin).
    unfold Claude3Cli.prepare. now rewrite Hin.
  - intros w' Hfs Hstdin.
    unfold LlmReview.main. rewrite (review_input_assembly_ext _ _ _ Hfs Hstdin).
    now rewrite Hin.
Qed.

End Drivers.

Lemma cli_call_example (runtime : bedrock_runtime) (answer : result (list pyval)) :
  invoke_model_with_response_stream runtime
    (make_body 50000 (VStr "Be brief.")
       (user_messages ("Summarize:" ++ newline ++ "hello ")))
    sonnet = answer ->
  cli_call example_json_loads (world_with runtime)
    (cli_args ["notes.txt"] None None (Some "prompt.json")) runtime answer.
Proof.
  intros H. exists (VStr "Be brief."), ("Summarize:" ++ newline ++ "hello ").
  split; [reflexivity|]. split; [reflexivity|]. exact H.
Defined.

Lemma review_call_example (runtime : bedrock_runtime) (answer : result (list pyval)) :
  invoke_model_with_response_stream runtime
    (make_body 50000 (VStr LlmReview.system_prompt)
       (user_messages (LlmReview.review_request ++ "print(1)")))
    sonnet = answer ->
  review_call (world_with runtime) (review_args ["main.py"]) runtime answer.
Proof.
  intros H. exists "print(1)".
  split; [reflexivity|]. split; [reflexivity|]. exact H.
Defined.

Lemma main_prints_accumulated_text_witness :
  forallb well_formed hello_stream = true /\
  Claude3Cli.main example_json_loads example_repr (world_with (scripted hello_stream))
    (cli_args ["notes.txt"] None None (Some "prompt.json")) = answered "Hello, world!" /\
  LlmReview.main example_repr (world_with (scripted hello_stream))
    (review_args ["main.py"]) = answered "Hello, world!".
Proof.
  destruct (main_prints_accumulated_text example_repr (world_with (scripted hello_stream))
              (scripted hello_stream) hello_stream eq_refl) as [Hcli Hreview].
  split; [reflexivity|]. split.
  - exact (Hcli _ _ (cli_call_example _ _ eq_refl)).
  - exact (Hreview _ (review_call_example _ _ eq_refl)).
Defined.

Lemma main_ill_formed_stream_witness :
  forallb well_formed broken_stream = false /\
  exists e,
    Claude3Cli.main example_json_loads example_repr (world_with (scripted broken_stream))
      (cli_args ["notes.txt"] None None (Some "prompt.json")) = crashed e /\
    LlmReview.main example_repr (world_with (scripted broken_stream))
      (review_args ["main.py"]) = crashed e.
Proof.
  split; [reflexivity|].
  destruct (main_ill_formed_stream example_repr (world_with (scripted broken_stream))
              (scripted broken_stream) broken_stream eq_refl)
    as (e & _ & _ & Hcli & Hreview).
  exists e. split.
  - exact (Hcli _ _ (cli_call_example _ _ eq_refl)).
  - exact (Hreview _ (review_call_example _ _ eq_refl)).
Defined.

Lemma client_error_at_construction_witness :
  Claude3Cli.main example_json_loads example_repr refusing_world
    (cli_args ["notes.txt"] None None (Some "prompt.json")) = reported "Access denied" /\
  LlmReview.main example_repr refusing_world (review_args ["main.py"]) =
    reported "Access denied".
Proof.
  destruct (client_error_at_construction example_repr refusing_world access_denied
              "Access denied" eq_refl) as [Hcli Hreview].
  split.
  - exact (Hcli example_json_loads
             (cli_args ["notes.txt"] None None (Some "prompt.json"))
             (VStr "Be brief.") ("Summarize:" ++ newline ++ "hello ") eq_refl eq_refl).
  - exact (Hreview (review_args ["main.py"]) "print(1)" eq_refl eq_refl).
Defined.

Lemma client_error_without_message_witness :
  Claude3Cli.main example_json_loads example_repr
    (world_with (failing (ClientError no_message)))
    (cli_args ["notes.txt"] None None (Some "prompt.json")) =
    crashed (KeyError "Message") /\
  LlmReview.main example_repr (world_with (failing (ClientError no_message)))
    (review_args ["main.py"]) = crashed (KeyError "Message").
Proof.
  destruct (client_error_without_message example_repr
              (world_with (failing (ClientError no_message)))
              (failing (ClientError no_message)) no_message (KeyError "Message") eq_refl)
    as (_ & Hcli & Hreview).
  split.
  - exact (Hcli _ _ (cli_call_example _ _ eq_refl)).
  - exact (Hreview _ (review_call_example _ _ eq_refl)).
Defined.

Lemma main_outcome_from_answer_witness :
  LlmReview.main example_repr (world_with (scripted hello_stream)) (review_args ["main.py"]) =
  Claude3Cli.main example_json_loads example_repr (world_with (scripted hello_stream))
    (cli_args ["notes.txt"] None None (Some "prompt.json")).
Proof.
  exact (proj2 (main_outcome_from_answer example_repr (Ok hello_stream) example_json_loads
                  (world_with (scripted hello_stream))
                  (cli_args ["notes.txt"] None None (Some "prompt.json"))
                  (scripted hello_stream) (cli_call_example _ _ eq_refl))
               _ _ _ (review_call_example (scripted hello_stream) _ eq_refl)).
Defined.

Lemma failed_read_ends_run_witness :
  Claude3Cli.input_assembly echo_world
    (cli_args ["notes.txt"; "secret.txt"] None None None) = Raise PermissionError /\
  Claude3Cli.main example_json_loads example_repr denied_world
    (cli_args ["notes.txt"; "secret.txt"] None None None) = crashed PermissionError /\
  LlmReview.main example_repr denied_world (review_args ["src"]) =
    crashed IsADirectoryError.
Proof.
  split; [reflexivity|]. split.
  - exact (proj1 (failed_read_ends_run example_repr echo_world PermissionError)
             (cli_args ["notes.txt"; "secret.txt"] None None None) eq_refl
             example_json_loads denied_world eq_refl eq_refl).
  - exact (proj2 (failed_read_ends_run example_repr echo_world IsADirectoryError)
             (review_args ["src"]) eq_refl
             denied_world eq_refl eq_refl).
Defined.
